(** * DocGenerator: the report pipeline of [backend/src/app.py]

    A shallow embedding of the five functions of the module
    ([parse_coords_json], [parse_coords_excel], [create_plot],
    [pdf_to_images], [generate_doc]) and the properties its design document
    states about them.

    Python values are an inductive type, Python floats are the kernel's
    binary64 floats, exceptions are values of an error monad, and the
    third-party packages the module calls (json, openpyxl, PyMuPDF, numpy,
    matplotlib, python-docx) are the variables of a section: every theorem
    holds for whatever those packages compute. *)

From Stdlib Require Import ZArith List String Ascii Bool Lia.
From Stdlib Require Import Strings.Byte DecimalString.
From Stdlib Require Import PrimFloat SpecFloat FloatOps FloatAxioms.
From Stdlib Require Import Sorted Permutation.
Import ListNotations.

#[local] Set Warnings "-register-all,-inexact-float".

Open Scope string_scope.
Open Scope list_scope.

(* ================================================================= *)
(** ** Python: exceptions, values, [float()] *)

Module Py.

(** The exception classes the handlers of the module tell apart.  A
    constructor stands for the class and its subclasses ([ValueError] covers
    [json.JSONDecodeError] and [UnicodeDecodeError], [RuntimeError] covers
    PyMuPDF's [FileDataError]); [Exception] is any other subclass of
    [Exception]. *)
Inductive exn_class : Type :=
| ValueError
| TypeError
| OverflowError
| RuntimeError
| MemoryError
| Exception.

Definition exn_class_eqb (a b : exn_class) : bool :=
  match a, b with
  | ValueError, ValueError | TypeError, TypeError
  | OverflowError, OverflowError | RuntimeError, RuntimeError
  | MemoryError, MemoryError | Exception, Exception => true
  | _, _ => false
  end.

(** An exception object: its class and [str(exc)]. *)
Record exn : Type := Exn { cls : exn_class; str : string }.

(** [isinstance(exc, c)], the test of an [except c] clause. *)
Definition isinstance (exc : exn) (c : exn_class) : bool :=
  match c with
  | Exception => true
  | _ => exn_class_eqb (cls exc) c
  end.

(** A computation returns or raises. *)
Inductive result (A : Type) : Type :=
| Ok (a : A)
| Raise (exc : exn).
Arguments Ok {A} a.
Arguments Raise {A} exc.

Definition bind {A B : Type} (r : result A) (k : A -> result B) : result B :=
  match r with
  | Ok a => k a
  | Raise exc => Raise exc
  end.

(** [try: body / except ...: handler]: the handler sees the exception and
    decides itself which classes it takes (re-raising the others). *)
Definition try_except {A : Type} (body : result A) (handler : exn -> result A)
  : result A :=
  match body with
  | Ok a => Ok a
  | Raise exc => handler exc
  end.

(** What [json.loads], a worksheet cell or a form field can hold.
    [PyObject ty] is an object of a class without [__float__]
    (a [datetime] cell of a worksheet, say). *)
Inductive pyobj : Type :=
| PyNone
| PyBool (b : bool)
| PyInt (z : Z)
| PyFloat (f : float)
| PyStr (s : string)
| PyList (items : list pyobj)
| PyDict (items : list (string * pyobj))
| PyObject (type_name : string).

(** [int.__float__]: the nearest binary64 value, ties to even;
    [OverflowError] when that is out of range. *)
Definition float_of_int (z : Z) : result float :=
  let f := SF2Prim (binary_normalize prec emax z 0 false) in
  if is_infinity f
  then Raise (Exn OverflowError "int too large to convert to float")
  else Ok f.

Definition float_type_error (type_name : string) : exn :=
  Exn TypeError
      ("float() argument must be a string or a real number, not '"
         ++ type_name ++ "'")%string.

End Py.
Export Py.

Declare Scope py_scope.
Notation "x <- r ;; k" := (bind r (fun x => k))
  (at level 61, r at next level, right associativity) : py_scope.
Open Scope py_scope.

(** A coordinate is the two-element list [[x, y]] of floats. *)
Definition coord : Type := (float * float)%type.

(** Uploaded content. *)
Definition bytes : Type := list byte.

(* ================================================================= *)
(** ** Text helpers *)

(** [needle in hay] on [str]. *)
Fixpoint contains (needle hay : string) : bool :=
  String.prefix needle hay
  || match hay with
     | EmptyString => false
     | String _ rest => contains needle rest
     end.

(** [str(n)] for a non-negative [int]. *)
Definition str_of_nat (n : nat) : string :=
  NilEmpty.string_of_uint (Nat.to_uint n).

(* ================================================================= *)
(** ** What the pipeline draws, assembles and answers *)

(** The calls [create_plot] makes on its axes, in call order. *)
Inductive artist : Type :=
| Scatter (xs ys : list float)
| Plot (xs ys : list float) (linestyle : string) (linewidth : option float)
| Text (x y : float) (s : string) (va : string)
| XLabel (s : string)
| YLabel (s : string)
| Grid (visible : bool)
| TightLayout.

(** The content [generate_doc] adds to the report, in call order; widths
    are in inches. *)
Inductive block : Type :=
| Heading (text : string) (level : Z)
| Paragraph (text : string)
| Picture (image : bytes) (width : Z).

(** The form fields of [POST /generate].  An upload that is present is
    truthy, whatever its content. *)
Record request : Type := Request {
  description : option string;
  coords_json : option string;
  excel_file : option bytes;
  pdf_file : option bytes
}.

Inductive response : Type :=
| StreamingResponse (content : bytes) (media_type : string)
                    (content_disposition : string)
| HTTPException (status_code : Z) (error : string).

(* ================================================================= *)
(** ** Stand-ins for the packages, to run the pipeline on examples

    Each table records what the package returns on the inputs of the
    examples below; the theorems do not depend on them. *)

Module Fixtures.

Definition quote : string := String (ascii_of_nat 34) EmptyString.

Fixpoint lookup {A : Type} (table : list (string * A)) (key : string)
  : option A :=
  match table with
  | [] => None
  | (k, v) :: rest => if String.eqb k key then Some v else lookup rest key
  end.

Definition int_pair (x y : Z) : pyobj := PyList [PyInt x; PyInt y].

Definition twelve_pairs : string :=
  "[[0, 0], [1, 1], [2, 2], [3, 3], [4, 4], [5, 5], [6, 6], [7, 7], [8, 8], [9, 9], [10, 10], [11, 11]]".

Definition quoted_pair : string :=
  "[[" ++ quote ++ "3.5" ++ quote ++ ", true]]".

Definition text_in_pair : string :=
  "[[1, 2], [" ++ quote ++ "abc" ++ quote ++ ", 3]]".

(** [json.loads] on the payloads of the examples; no other text of the
    examples decodes. *)
Definition json_table : list (string * pyobj) :=
  [ ("[]", PyList []);
    ("{}", PyDict []);
    ("[[5, 5]]", PyList [int_pair 5 5]);
    ("[[0, 0], [2, 4]]", PyList [int_pair 0 0; int_pair 2 4]);
    ("[[0, 0], 7, [2, 4], [1]]",
     PyList [int_pair 0 0; PyInt 7; int_pair 2 4; PyList [PyInt 1]]);
    ("[7, [1], [1, 2, 3]]",
     PyList [PyInt 7; PyList [PyInt 1]; PyList [PyInt 1; PyInt 2; PyInt 3]]);
    ("[[1, 2], [null, 3]]", PyList [int_pair 1 2; PyList [PyNone; PyInt 3]]);
    (text_in_pair, PyList [int_pair 1 2; PyList [PyStr "abc"; PyInt 3]]);
    (quoted_pair, PyList [PyList [PyStr "3.5"; PyBool true]]);
    (twelve_pairs,
     PyList (map (fun n => int_pair n n) [0; 1; 2; 3; 4; 5; 6; 7; 8; 9; 10; 11]%Z)) ].

Definition json_loads (s : string) : result pyobj :=
  match lookup json_table s with
  | Some v => Ok v
  | None => Raise (Exn ValueError "Expecting value: line 1 column 1 (char 0)")
  end.

(** [float] on a [str]. *)
Definition float_of_str (s : string) : result float :=
  match lookup [("3.5", 3.5%float); ("2", 2%float)] s with
  | Some f => Ok f
  | None =>
      Raise (Exn ValueError
               ("could not convert string to float: '" ++ s ++ "'")%string)
  end.

(** An upload that openpyxl reads as the sheet [ws]. *)
Definition workbook (ws : list (list pyobj)) : bytes -> result (list (list pyobj)) :=
  fun _ => Ok ws.

Definition total (l : list float) : float :=
  fold_left PrimFloat.add l 0%float.

(** [np.polyfit] for a line: this stand-in solves the normal equations. *)
Definition np_polyfit (xs ys : list float) (deg : nat)
  : result (float * float) :=
  let n := total (map (fun _ => 1%float) xs) in
  let sx := total xs in
  let sy := total ys in
  let sxx := total (map (fun x => x * x)%float xs) in
  let sxy := total (map (fun xy => fst xy * snd xy)%float (combine xs ys)) in
  let slope := ((n * sxy - sx * sy) / (n * sxx - sx * sx))%float in
  Ok (slope, ((sy - slope * sx) / n)%float).

(** The format specification [.3f]: the exact value of the float, rounded
    to thousandths, ties to even. *)
Definition digits (n : Z) : string :=
  NilZero.string_of_uint (N.to_uint (Z.to_N n)).

Definition thousandths (m : positive) (e : Z) : Z :=
  if (0 <=? e)%Z then Zpos m * 2 ^ e * 1000
  else
    let num := (Zpos m * 1000)%Z in
    let den := (2 ^ (- e))%Z in
    let q := (num / den)%Z in
    match (2 * (num mod den) ?= den)%Z with
    | Lt => q
    | Gt => (q + 1)%Z
    | Eq => if Z.even q then q else (q + 1)%Z
    end.

Definition format_3f (f : float) : string :=
  match Prim2SF f with
  | S754_nan => "nan"
  | S754_infinity s => if s then "-inf" else "inf"
  | S754_zero s => (if s then "-" else EmptyString) ++ "0.000"
  | S754_finite s m e =>
      let n := thousandths m e in
      (if s then "-" else EmptyString)
        ++ digits (n / 1000) ++ "."
        ++ (if (n mod 1000 <? 10)%Z then "00"
            else if (n mod 1000 <? 100)%Z then "0" else EmptyString)
        ++ digits (n mod 1000)
  end.

(** A matplotlib that draws every figure: the PNG signature, then a byte
    for each call. *)
Definition savefig_png (artists : list artist) : result bytes :=
  Ok ([x89; x50; x4e; x47] ++ map (fun _ => x2a) artists).

(** PyMuPDF on documents whose pages are numbers; page [99] is too large
    to render. *)
Definition pdf_document (pages : list nat) : bytes -> result (list nat) :=
  fun _ => Ok pages.

Definition pdf_protected : bytes -> result (list nat) :=
  fun _ => Raise (Exn RuntimeError "cannot authenticate: document is Encrypted").

Definition get_pixmap (pg : nat) (dpi : Z) : result nat :=
  if Nat.eqb pg 99 then Raise (Exn MemoryError EmptyString) else Ok pg.

Definition tobytes (pix : nat) (format : string) : result bytes :=
  Ok ([x89; x50; x4e; x47] ++ repeat x2a pix).

(** [str.lower] on ASCII text. *)
Definition lower_ascii (c : ascii) : ascii :=
  let n := nat_of_ascii c in
  if (65 <=? n)%nat && (n <=? 90)%nat then ascii_of_nat (n + 32) else c.

Fixpoint lower (s : string) : string :=
  match s with
  | EmptyString => EmptyString
  | String c rest => String (lower_ascii c) (lower rest)
  end.

(** python-docx: lxml refuses a text with a control character, with a
    [ValueError]; otherwise the saved package, a byte for each block. *)
Definition xml_char (c : ascii) : bool :=
  let n := nat_of_ascii c in
  (32 <=? n)%nat || Nat.eqb n 9 || Nat.eqb n 10 || Nat.eqb n 13.

Fixpoint xml_compatible (s : string) : bool :=
  match s with
  | EmptyString => true
  | String c rest => xml_char c && xml_compatible rest
  end.

Definition block_text (b : block) : string :=
  match b with
  | Heading text _ | Paragraph text => text
  | Picture _ _ => EmptyString
  end.

Definition docx_save (blocks : list block) : result bytes :=
  if forallb (fun b => xml_compatible (block_text b)) blocks
  then Ok ([x50; x4b; x03; x04] ++ map (fun _ => x2a) blocks)
  else Raise (Exn ValueError
                "All strings must be XML compatible: Unicode or ASCII, no NULL bytes or control characters").

(** python-docx running out of memory while it saves. *)
Definition docx_save_fails (blocks : list block) : result bytes :=
  Raise (Exn MemoryError EmptyString).

(** A description that starts with an escape character. *)
Definition pasted_description : string :=
  String (ascii_of_nat 27) "[1mResults of the survey".

(** The first bytes of a PDF and of a workbook. *)
Definition pdf_magic : bytes := [x25; x50; x44; x46].
Definition xlsx_magic : bytes := [x50; x4b; x03; x04].

(** A sheet: a header, eleven rows of numbers with a blank row among
    them, and a row of text after the tenth coordinate. *)
Definition number_row (n : Z) : list pyobj := [PyInt n; PyInt (n * n); PyStr "note"].

Definition long_sheet : list (list pyobj) :=
  [PyStr "x"; PyStr "y"; PyStr "comment"]
    :: number_row 1 :: number_row 2 :: [PyNone; PyInt 7; PyNone]
    :: map number_row [3; 4; 5; 6; 7; 8; 9; 10]%Z
    ++ [[PyStr "total"; PyStr "n/a"; PyNone]; number_row 11].

(** A sheet whose only data row holds text. *)
Definition text_sheet : list (list pyobj) :=
  [[PyStr "x"; PyStr "y"]; [PyStr "abc"; PyFloat 2]].

(** [json.loads] on one more payload. *)
Definition json_loads_more (s : string) : result pyobj :=
  match lookup [("[[1, 2], [null, 3], [4, 5]]",
                 PyList [int_pair 1 2; PyList [PyNone; PyInt 3]; int_pair 4 5])] s with
  | Some v => Ok v
  | None => json_loads s
  end.


(** A matplotlib that cannot lay out a figure with a coordinate of
    magnitude 1e308 or more: [fig.tight_layout()] raises a [ValueError],
    of text [msg]. *)
Definition out_of_scale (v : float) : bool :=
  PrimFloat.leb 1e308 (PrimFloat.abs v).

Definition savefig_png_out_of_scale (msg : string) (artists : list artist)
  : result bytes :=
  if existsb (fun a => match a with
                       | Scatter xs ys => existsb out_of_scale (xs ++ ys)
                       | _ => false
                       end) artists
  then Raise (Exn ValueError msg)
  else savefig_png artists.

(** PyMuPDF refusing a damaged file, and running out of memory on a
    large one. *)
Definition pdf_broken : bytes -> result (list nat) :=
  fun _ => Raise (Exn RuntimeError "Cannot open broken document").

Definition pdf_too_large : bytes -> result (list nat) :=
  fun _ => Raise (Exn MemoryError EmptyString).

End Fixtures.

(* ================================================================= *)
(** ** The pipeline *)

Section Pipeline.

(** *** The packages the module calls *)

(** [json.loads]. *)
Variable json_loads : string -> result pyobj.
(** [float(s)] for a [str]: the parser of float literals. *)
Variable float_of_str : string -> result float.
(** [load_workbook(filename=BytesIO(content), data_only=True).active]
    as the rows of the active sheet, row 1 first, each row the values of
    its cells. *)
Variable load_workbook : bytes -> result (list (list pyobj)).
(** [np.polyfit(xs, ys, deg)] for [deg = 1]: the coefficients [p[0]]
    (slope) and [p[1]] (intercept). *)
Variable np_polyfit : list float -> list float -> nat -> result (float * float).
(** The format specification [.3f]. *)
Variable format_3f : float -> string.
(** matplotlib, from [plt.subplots()] to [fig.savefig(buf, format="png")]:
    the figure on which these calls were made, encoded.  The calls are
    not guarded in [create_plot]: what one of them raises (laying out a
    figure whose data matplotlib cannot scale, for one) is raised here. *)
Variable savefig_png : list artist -> result bytes.
(** PyMuPDF.  [fitz_open] is [fitz.open(stream=..., filetype="pdf")] on
    a document that is read: [Ok doc] when it opens and the loop of
    [pdf_to_images] gets the pages [doc] from it, [Raise e] when
    [fitz.open] raises [e].  A document that opens and then refuses its
    pages (PyMuPDF opens a PDF that needs a password, and raises
    [ValueError("document closed or encrypted")] when the loop asks for
    its first page) is not among these answers. *)
Variable page : Type.
Variable pixmap : Type.
Variable fitz_open : bytes -> result (list page).
Variable get_pixmap : page -> Z -> result pixmap.
Variable tobytes : pixmap -> string -> result bytes.
(** [str.lower]. *)
Variable lower : string -> string.
(** python-docx: the document built from these blocks, saved. *)
Variable docx_save : list block -> result bytes.

(** *** Coordinate extraction *)

(** [float(v)]. *)
Definition py_float (v : pyobj) : result float :=
  match v with
  | PyFloat f => Ok f
  | PyInt z => float_of_int z
  | PyBool b => float_of_int (if b then 1 else 0)
  | PyStr s => float_of_str s
  | PyNone => Raise (float_type_error "NoneType")
  | PyList _ => Raise (float_type_error "list")
  | PyDict _ => Raise (float_type_error "dict")
  | PyObject ty => Raise (float_type_error ty)
  end.

(** The loop of [parse_coords_json]: [coords] is the list being appended
    to. *)
Fixpoint collect_pairs (data : list pyobj) (coords : list coord)
  : result (list coord) :=
  match data with
  | [] => Ok coords
  | item :: rest =>
      match item with
      | PyList [a; b] =>
          x <- py_float a ;;
          y <- py_float b ;;
          collect_pairs rest (coords ++ [(x, y)])
      | _ => collect_pairs rest coords
      end
  end.

Definition parse_coords_json (coords_json : string) : result (list coord) :=
  try_except
    (data <- json_loads coords_json ;;
     match data with
     | PyList items =>
         coords <- collect_pairs items [] ;;
         match coords with
         | [] => Raise (Exn ValueError "Список координат пуст")
         | _ :: _ => Ok (firstn 10 coords)
         end
     | _ => Raise (Exn ValueError "JSON должен быть списком координат")
     end)
    (fun exc =>
       Raise (Exn ValueError ("Некорректные координаты: " ++ str exc)%string)).

(** [ws.iter_rows(min_row=2, values_only=True)]. *)
Definition iter_rows_from_2 (ws : list (list pyobj)) : list (list pyobj) :=
  skipn 1 ws.

Definition is_none (v : pyobj) : bool :=
  match v with PyNone => true | _ => false end.

(** The loop of [parse_coords_excel], with its [break]. *)
Fixpoint scan_rows (rows : list (list pyobj)) (coords : list coord)
  : result (list coord) :=
  match rows with
  | [] => Ok coords
  | row :: rest =>
      match firstn 2 row with
      | [x; y] =>
          coords' <-
            (if negb (is_none x) && negb (is_none y)
             then fx <- py_float x ;;
                  fy <- py_float y ;;
                  Ok (coords ++ [(fx, fy)])
             else Ok coords) ;;
          if (10 <=? List.length coords')%nat then Ok coords' else scan_rows rest coords'
      | got =>
          Raise (Exn ValueError
                   ("not enough values to unpack (expected 2, got "
                      ++ str_of_nat (List.length got) ++ ")")%string)
      end
  end.

Definition parse_coords_excel (excel_file : bytes) : result (list coord) :=
  try_except
    (ws <- load_workbook excel_file ;;
     coords <- scan_rows (iter_rows_from_2 ws) [] ;;
     match coords with
     | [] => Raise (Exn ValueError "В Excel-файле нет координат")
     | _ :: _ => Ok coords
     end)
    (fun exc => Raise (Exn ValueError ("Ошибка Excel: " ++ str exc)%string)).


(** *** The chart *)

(** [sorted(pairs, key=lambda p: p[0])]: a stable sort on [x], written as
    the insertion of each pair behind the pairs that are not above it.
    On abscissas that are numbers a stable sort has one answer, this
    one; with a NaN among them the comparison is no order and the answer
    of Python's merge sort depends on the comparisons it happens to
    make, which this definition does not follow. *)
Fixpoint insert_by_x (p : coord) (l : list coord) : list coord :=
  match l with
  | [] => [p]
  | q :: l' =>
      if PrimFloat.ltb (fst p) (fst q) then p :: q :: l'
      else q :: insert_by_x p l'
  end.

Definition sorted_by_x (pairs : list coord) : list coord :=
  fold_left (fun acc p => insert_by_x p acc) pairs [].

(** [np.polyval(p, xs)] for two coefficients: Horner's rule from [0]. *)
Definition np_polyval (p : float * float) (xs : list float) : list float :=
  map (fun x => ((0 * x + fst p) * x + snd p)%float) xs.

Definition trend_label (p : float * float) : string :=
  "Тренд: y=" ++ format_3f (fst p) ++ "x+" ++ format_3f (snd p).

(** The artists [create_plot] puts on the axes before the labels. *)
Definition plot_layers (coords : list coord) : result (list artist) :=
  let xs := map fst coords in
  let ys := map snd coords in
  let sorted_pairs := sorted_by_x (combine xs ys) in
  let xs_s := map fst sorted_pairs in
  let ys_s := map snd sorted_pairs in
  let ax := [Scatter xs ys; Plot xs_s ys_s "-" None] in
  if (2 <=? List.length xs)%nat
  then p <- np_polyfit xs ys 1 ;;
       Ok (ax ++ [Plot xs_s (np_polyval p xs_s) "--" (Some 1%float);
                  Text 0.02 0.98 (trend_label p) "top"])
  else Ok ax.

(** [create_plot]: the unpacking of line 104, which raises on no
    coordinate, then the calls on the axes, the labels, the grid and the
    layout, handed to matplotlib, whose answer is returned. *)
Definition create_plot (coords : list coord) : result bytes :=
  match coords with
  | [] =>
      Raise (Exn ValueError "not enough values to unpack (expected 2, got 0)")
  | _ :: _ =>
      ax <- plot_layers coords ;;
      savefig_png (ax ++ [XLabel "X"; YLabel "Y"; Grid true; TightLayout])
  end.


(** *** The pages of the PDF *)

(** [fitz.open] under its [except RuntimeError] clause. *)
Definition open_pdf (pdf_bytes : bytes) : result (list page) :=
  try_except (fitz_open pdf_bytes)
    (fun e =>
       if isinstance e RuntimeError then
         let msg := lower (str e) in
         if contains "encrypted" msg || contains "password" msg
         then Raise (Exn ValueError "PDF защищён паролем")
         else if contains "cannot open broken document" msg
         then Raise (Exn ValueError "PDF повреждён или имеет неверный формат")
         else if contains "xref" msg || contains "no objects" msg
         then Raise (Exn ValueError "PDF имеет повреждённую структуру")
         else Raise (Exn ValueError ("Невозможно открыть PDF: " ++ str e))
       else Raise e).

(** The body of the page loop under its two [except] clauses;
    [page_number] counts from [0]. *)
Definition render_page (page_number : nat) (pg : page) : result bytes :=
  try_except
    (pix <- get_pixmap pg 150 ;; tobytes pix "png")
    (fun e =>
       if isinstance e MemoryError then
         Raise (Exn ValueError
                  ("Недостаточно памяти для рендеринга страницы "
                     ++ str_of_nat (page_number + 1) ++ ". "
                     ++ "PDF слишком большой или содержит очень высокое разрешение."))
       else
         Raise (Exn ValueError
                  ("Ошибка рендеринга страницы "
                     ++ str_of_nat (page_number + 1) ++ ": " ++ str e))).

Fixpoint render_pages (page_number : nat) (doc : list page)
         (images : list bytes) : result (list bytes) :=
  match doc with
  | [] => Ok images
  | pg :: rest =>
      img <- render_page page_number pg ;;
      render_pages (S page_number) rest (images ++ [img])
  end.

Definition pdf_to_images (pdf_bytes : bytes) : result (list bytes) :=
  try_except
    (match pdf_bytes with
     | [] => Raise (Exn ValueError "PDF-файл пустой")
     | _ :: _ =>
         doc <- open_pdf pdf_bytes ;;
         render_pages 0 doc []
     end)
    (fun exc =>
       if isinstance exc MemoryError then
         Raise (Exn ValueError
                  ("Недостаточно памяти для обработки PDF. "
                     ++ "Попробуйте загрузить файл меньшего размера."))
       else Raise (Exn ValueError ("Ошибка PDF: " ++ str exc))).

(** *** The request handler *)

Definition docx_media_type : string :=
  "application/vnd.openxmlformats-officedocument.wordprocessingml.document".

Definition docx_disposition : string :=
  "attachment; filename=generated_document.docx".

(** The [if excel_file / elif coords_json / else] at the head of the
    handler; a [str] is truthy when it is not empty. *)
Definition select_coords (req : request) : result (list coord) :=
  match excel_file req with
  | Some f => parse_coords_excel f
  | None =>
      match coords_json req with
      | Some (String c s) => parse_coords_json (String c s)
      | Some EmptyString | None =>
          Raise (Exn ValueError "Не переданы координаты")
      end
  end.

(** [enumerate(pdf_images, start=i)]. *)
Fixpoint page_blocks (i : nat) (pdf_images : list bytes) : list block :=
  match pdf_images with
  | [] => []
  | img :: rest =>
      Paragraph ("Страница " ++ str_of_nat i ++ ":")
        :: Picture img 6 :: page_blocks (S i) rest
  end.

Definition report_blocks (description : option string) (plot_buf : bytes)
           (pdf_images : list bytes) : list block :=
  [Heading "Описание" 1;
   Paragraph (match description with
              | Some (String c s) => String c s
              | Some EmptyString | None => "Описание работы"
              end);
   Heading "График по координатам" 1;
   Paragraph "График.";
   Picture plot_buf 6]
    ++ page_blocks 1 pdf_images.

(** The body of the handler's [try]. *)
Definition build_report (req : request) : result response :=
  coords <- select_coords req ;;
  pdf_images <- match pdf_file req with
                | Some f => pdf_to_images f
                | None => Ok []
                end ;;
  plot_buf <- create_plot coords ;;
  output <- docx_save (report_blocks (description req) plot_buf pdf_images) ;;
  Ok (StreamingResponse output docx_media_type docx_disposition).

(** The handler's two [except] clauses. *)
Definition http_error (exc : exn) : response :=
  if isinstance exc ValueError
  then HTTPException 400 (str exc)
  else HTTPException 500 ("Внутренняя ошибка сервера: " ++ str exc).

Definition generate_doc (req : request) : response :=
  match build_report req with
  | Ok resp => resp
  | Raise exc => http_error exc
  end.

(* =============================================================== *)
(** *** Vocabulary of the design document *)

(** An element shaped as a pair: a list of exactly two values. *)
Definition pair_shape (v : pyobj) : option (pyobj * pyobj) :=
  match v with
  | PyList [a; b] => Some (a, b)
  | _ => None
  end.

(** [float()] applied to both values. *)
Definition convert_pair (ab : pyobj * pyobj) : result coord :=
  x <- py_float (fst ab) ;;
  y <- py_float (snd ab) ;;
  Ok (x, y).

(** A valid pair: shaped as a pair, of two values [float()] converts. *)
Definition valid_pair (v : pyobj) : option coord :=
  match pair_shape v with
  | Some ab => match convert_pair ab with
               | Ok c => Some c
               | Raise _ => None
               end
  | None => None
  end.

(** The valid pairs of a decoded array, in the order of the array. *)
Definition valid_pairs (data : list pyobj) : list coord :=
  flat_map (fun v => match valid_pair v with
                     | Some c => [c]
                     | None => []
                     end) data.

(** An element that is either not shaped as a pair or is a valid one. *)
Definition convertible (v : pyobj) : bool :=
  match pair_shape v with
  | Some ab => match convert_pair ab with
               | Ok _ => true
               | Raise _ => false
               end
  | None => true
  end.

(** The messages of the two extractors and of the handler when no source
    is present: the design document's [InvalidCoordinateInput]. *)
Definition invalid_json (why : string) : exn :=
  Exn ValueError ("Некорректные координаты: " ++ why).

Definition invalid_excel (why : string) : exn :=
  Exn ValueError ("Ошибка Excel: " ++ why).

(** The first two cells of a row, [row[:2]], when there are two. *)
Definition row_cells (row : list pyobj) : option (pyobj * pyobj) :=
  match firstn 2 row with
  | [x; y] => Some (x, y)
  | _ => None
  end.

(** Both cells hold a value. *)
Definition non_null (xy : pyobj * pyobj) : bool :=
  negb (is_none (fst xy)) && negb (is_none (snd xy)).

(** The coordinate a data row contributes, if any. *)
Definition row_coord (row : list pyobj) : option coord :=
  match row_cells row with
  | Some xy =>
      if non_null xy
      then match convert_pair xy with
           | Ok c => Some c
           | Raise _ => None
           end
      else None
  | None => None
  end.

(** The coordinates of the data rows, in row order. *)
Definition sheet_coords (rows : list (list pyobj)) : list coord :=
  flat_map (fun row => match row_coord row with
                       | Some c => [c]
                       | None => []
                       end) rows.

(** A row the loop gets past: it has two cells and, when both hold a
    value, [float()] converts them. *)
Definition readable_row (row : list pyobj) : bool :=
  match row_cells row with
  | Some xy =>
      if non_null xy
      then match convert_pair xy with
           | Ok _ => true
           | Raise _ => false
           end
      else true
  | None => false
  end.

(** The causes [pdf_to_images] words itself, by the design document's
    category.  The caller sees each behind the prefix of the outer
    handler. *)
Definition encrypted_document : string := "PDF защищён паролем".

Inductive malformed_document : string -> Prop :=
| malformed_empty : malformed_document "PDF-файл пустой"
| malformed_broken :
    malformed_document "PDF повреждён или имеет неверный формат"
| malformed_xref : malformed_document "PDF имеет повреждённую структуру"
| malformed_open (diagnostic : string) :
    malformed_document ("Невозможно открыть PDF: " ++ diagnostic)
| malformed_page (n : nat) (diagnostic : string) :
    malformed_document
      ("Ошибка рендеринга страницы " ++ str_of_nat n ++ ": " ++ diagnostic).

Definition pdf_error (cause : string) : exn :=
  Exn ValueError ("Ошибка PDF: " ++ cause).

(** The rasterization step of the handler: skipped without an upload. *)
Definition pdf_stage (req : request) : result (list bytes) :=
  match pdf_file req with
  | Some f => pdf_to_images f
  | None => Ok []
  end.

(* =============================================================== *)
(** *** The structured-text extractor *)

Lemma collect_pairs_step (v : pyobj) (rest : list pyobj) (coords : list coord) :
  collect_pairs (v :: rest) coords =
  match pair_shape v with
  | Some ab => c <- convert_pair ab ;; collect_pairs rest (coords ++ [c])
  | None => collect_pairs rest coords
  end.
Proof.
  unfold pair_shape, convert_pair.
  destruct v as [| | | | |items| |]; try reflexivity.
  destruct items as [|a [|b [|c items]]]; try reflexivity.
  cbn [collect_pairs fst snd].
  destruct (py_float a); cbn [bind]; [|reflexivity].
  destruct (py_float b); reflexivity.
Qed.

Lemma valid_pairs_cons (v : pyobj) (rest : list pyobj) :
  valid_pairs (v :: rest) =
  match valid_pair v with
  | Some c => c :: valid_pairs rest
  | None => valid_pairs rest
  end.
Proof.
  unfold valid_pairs; cbn [flat_map].
  destruct (valid_pair v); reflexivity.
Qed.

(** When every element is convertible the loop ends with the valid pairs
    appended, in order. *)
Lemma collect_pairs_convertible (data : list pyobj) :
  forall coords,
    forallb convertible data = true ->
    collect_pairs data coords = Ok (coords ++ valid_pairs data).
Proof.
  induction data as [|v rest IH]; intros coords Hall.
  - cbn. now rewrite app_nil_r.
  - cbn [forallb] in Hall. apply andb_true_iff in Hall as [Hv Hrest].
    rewrite collect_pairs_step, valid_pairs_cons.
    unfold convertible in Hv. unfold valid_pair.
    destruct (pair_shape v) as [ab|].
    + destruct (convert_pair ab) as [c|e]; [|discriminate].
      cbn [bind]. rewrite IH by assumption.
      now rewrite <- app_assoc.
    + now apply IH.
Qed.

(** The first element that is shaped as a pair and does not convert stops
    the loop with the exception of [float()]. *)
Lemma collect_pairs_not_convertible (data : list pyobj) :
  forall coords,
    forallb convertible data = false ->
    exists exc, collect_pairs data coords = Raise exc.
Proof.
  induction data as [|v rest IH]; intros coords Hall.
  - discriminate.
  - cbn [forallb] in Hall. rewrite collect_pairs_step.
    unfold convertible in Hall.
    destruct (pair_shape v) as [ab|].
    + destruct (convert_pair ab) as [c|e].
      * cbn [bind]. now apply IH.
      * cbn [bind]. now exists e.
    + now apply IH.
Qed.

Lemma parse_coords_json_array (s : string) (items : list pyobj) :
  json_loads s = Ok (PyList items) ->
  parse_coords_json s =
  match collect_pairs items [] with
  | Ok [] => Raise (invalid_json "Список координат пуст")
  | Ok (c :: coords) => Ok (firstn 10 (c :: coords))
  | Raise exc => Raise (invalid_json (str exc))
  end.
Proof.
  intros Hloads. unfold parse_coords_json. rewrite Hloads. cbn [bind].
  destruct (collect_pairs items []) as [[|c coords]|exc]; reflexivity.
Qed.

(** C1 (as amended): a payload that decodes to an array with at least
    one valid pair, and in which no two-element array holds a value that
    [float()] rejects, yields the first ten valid pairs in the order of
    the array: [min(valid_pair_count, 10)] of them. *)
Theorem parse_coords_json_first_ten (s : string) (items : list pyobj) :
  json_loads s = Ok (PyList items) ->
  forallb convertible items = true ->
  valid_pairs items <> [] ->
  parse_coords_json s = Ok (firstn 10 (valid_pairs items))
  /\ List.length (firstn 10 (valid_pairs items))
     = Nat.min (List.length (valid_pairs items)) 10.
Proof.
  intros Hloads Hconv Hsome. split.
  - rewrite (parse_coords_json_array _ _ Hloads).
    rewrite collect_pairs_convertible by assumption. cbn [app].
    destruct (valid_pairs items); [contradiction|reflexivity].
  - rewrite length_firstn. apply Nat.min_comm.
Qed.

(** C2 (as amended): elements that are not two-element arrays are
    skipped and the pairs that remain are returned; the payload is
    rejected when it does not decode, when it is not an array, when no
    pair remains (an array of wrongly shaped elements fails as the empty
    array does), and also when a two-element array holds a value that
    [float()] does not convert. *)
Theorem parse_coords_json_filtering (s : string) :
  (forall exc, json_loads s = Raise exc ->
     parse_coords_json s = Raise (invalid_json (str exc)))
  /\ (forall v, json_loads s = Ok v -> (forall items, v <> PyList items) ->
        parse_coords_json s
        = Raise (invalid_json "JSON должен быть списком координат"))
  /\ (forall items, json_loads s = Ok (PyList items) ->
        (forallb convertible items = true -> valid_pairs items <> [] ->
           parse_coords_json s = Ok (firstn 10 (valid_pairs items)))
        /\ (forallb convertible items = true -> valid_pairs items = [] ->
              parse_coords_json s
              = Raise (invalid_json "Список координат пуст"))
        /\ ((forall v, In v items -> pair_shape v = None) ->
              parse_coords_json s
              = Raise (invalid_json "Список координат пуст"))
        /\ (forallb convertible items = false ->
              exists why, parse_coords_json s = Raise (invalid_json why))).
Proof.
  split; [|split].
  - intros exc Hloads. unfold parse_coords_json. now rewrite Hloads.
  - intros v Hloads Hnot. unfold parse_coords_json. rewrite Hloads.
    destruct v; try reflexivity. now elim (Hnot items).
  - intros items Hloads.
    rewrite (parse_coords_json_array _ _ Hloads).
    assert (Hempty : forallb convertible items = true ->
                     valid_pairs items = [] ->
                     match collect_pairs items [] with
                     | Ok [] => Raise (invalid_json "Список координат пуст")
                     | Ok (c :: coords) => Ok (firstn 10 (c :: coords))
                     | Raise exc => Raise (invalid_json (str exc))
                     end = Raise (invalid_json "Список координат пуст")).
    { intros Hconv Hnone.
      rewrite collect_pairs_convertible by assumption.
      now rewrite Hnone. }
    repeat split.
    + intros Hconv Hsome.
      rewrite collect_pairs_convertible by assumption. cbn [app].
      destruct (valid_pairs items); [contradiction|reflexivity].
    + exact Hempty.
    + intros Hshape.
      assert (Hv : forall v, In v items -> valid_pair v = None
                                           /\ convertible v = true).
      { intros v Hin. unfold valid_pair, convertible.
        now rewrite (Hshape v Hin). }
      apply Hempty.
      * apply forallb_forall. intros v Hin. now apply Hv.
      * clear - Hv. induction items as [|v rest IH]; [reflexivity|].
        rewrite valid_pairs_cons.
        destruct (Hv v (or_introl eq_refl)) as [-> _].
        apply IH. intros w Hin. apply Hv. now right.
    + intros Hconv.
      destruct (collect_pairs_not_convertible items [] Hconv) as [exc ->].
      now exists (str exc).
Qed.

(** C10: a two-element array of any two values [float()] converts is
    accepted and converted, numbers or not: [float()] takes a [str]
    through the parser of float literals and a [bool] to [1.0] or
    [0.0]. *)
Theorem parse_coords_json_coerces (s : string) (a b : pyobj) (x y : float) :
  json_loads s = Ok (PyList [PyList [a; b]]) ->
  py_float a = Ok x ->
  py_float b = Ok y ->
  parse_coords_json s = Ok [(x, y)]
  /\ (forall t, py_float (PyStr t) = float_of_str t)
  /\ py_float (PyBool true) = Ok 1%float
  /\ py_float (PyBool false) = Ok 0%float.
Proof.
  intros Hloads Ha Hb. repeat split.
  rewrite (parse_coords_json_array _ _ Hloads).
  cbn [collect_pairs]. rewrite Ha, Hb. reflexivity.
Qed.

(* =============================================================== *)
(** *** The spreadsheet extractor *)

Lemma scan_rows_step (row : list pyobj) (rest : list (list pyobj))
      (coords : list coord) :
  scan_rows (row :: rest) coords =
  match row_cells row with
  | Some xy =>
      coords' <- (if non_null xy
                  then c <- convert_pair xy ;; Ok (coords ++ [c])
                  else Ok coords) ;;
      if (10 <=? List.length coords')%nat then Ok coords'
      else scan_rows rest coords'
  | None =>
      Raise (Exn ValueError
               ("not enough values to unpack (expected 2, got "
                  ++ str_of_nat (List.length (firstn 2 row)) ++ ")"))
  end.
Proof.
  unfold row_cells. cbn [scan_rows].
  destruct (firstn 2 row) as [|x [|y [|z l]]]; try reflexivity.
  unfold non_null, convert_pair. cbn [fst snd].
  destruct (negb (is_none x) && negb (is_none y)); [|reflexivity].
  destruct (py_float x); cbn [bind]; [|reflexivity].
  destruct (py_float y); reflexivity.
Qed.

Lemma sheet_coords_cons (row : list pyobj) (rest : list (list pyobj)) :
  sheet_coords (row :: rest) =
  match row_coord row with
  | Some c => c :: sheet_coords rest
  | None => sheet_coords rest
  end.
Proof.
  unfold sheet_coords; cbn [flat_map].
  destruct (row_coord row); reflexivity.
Qed.

(** What a readable row does to the list being built. *)
Lemma readable_row_inv (row : list pyobj) :
  readable_row row = true ->
  exists xy, row_cells row = Some xy
             /\ ((non_null xy = true
                  /\ exists c, convert_pair xy = Ok c /\ row_coord row = Some c)
                 \/ (non_null xy = false /\ row_coord row = None)).
Proof.
  unfold readable_row, row_coord.
  destruct (row_cells row) as [xy|]; [|discriminate].
  intros H. exists xy. split; [reflexivity|].
  destruct (non_null xy).
  - left. split; [reflexivity|].
    destruct (convert_pair xy) as [c|]; [|discriminate]. now exists c.
  - now right.
Qed.

(** The loop over readable rows: it keeps the coordinates of the rows in
    order and returns at the tenth, whatever follows. *)
Lemma scan_rows_readable (read : list (list pyobj)) :
  forall (unread : list (list pyobj)) (coords : list coord),
    forallb readable_row read = true ->
    List.length coords < 10 ->
    unread = [] \/ 10 <= List.length (coords ++ sheet_coords read) ->
    scan_rows (read ++ unread) coords
    = Ok (firstn 10 (coords ++ sheet_coords read)).
Proof.
  induction read as [|row read IH]; intros unread coords Hread Hlt Hstop.
  - cbn [sheet_coords flat_map app] in *. rewrite app_nil_r in *.
    destruct Hstop as [-> | Hge]; [|lia].
    cbn [scan_rows]. now rewrite firstn_all2 by lia.
  - cbn [forallb] in Hread. apply andb_true_iff in Hread as [Hrow Hread].
    cbn [app]. rewrite scan_rows_step.
    rewrite sheet_coords_cons in *.
    destruct (readable_row_inv _ Hrow)
      as (xy & -> & [(-> & c & -> & Hc) | (-> & Hc)]);
      rewrite Hc in *; cbn [bind].
    + destruct (10 <=? List.length (coords ++ [c]))%nat eqn:Hten.
      * apply Nat.leb_le in Hten. rewrite length_app in Hten.
        cbn [List.length] in Hten. f_equal.
        change (c :: sheet_coords read) with ([c] ++ sheet_coords read).
        rewrite app_assoc, firstn_app.
        replace (10 - List.length (coords ++ [c])) with 0
          by (rewrite length_app; cbn [List.length]; lia).
        rewrite firstn_all2 by (rewrite length_app; cbn [List.length]; lia).
        cbn [firstn]. now rewrite app_nil_r.
      * apply Nat.leb_gt in Hten.
        rewrite IH; try assumption.
        -- now rewrite <- app_assoc.
        -- rewrite <- app_assoc. exact Hstop.
    + destruct (10 <=? List.length coords)%nat eqn:Hten.
      * apply Nat.leb_le in Hten. lia.
      * now apply IH.
Qed.

(** A row that is not readable, met before ten coordinates are
    collected, ends the loop with an exception. *)
Lemma scan_rows_unreadable (read : list (list pyobj)) :
  forall (bad : list pyobj) (unread : list (list pyobj)) (coords : list coord),
    forallb readable_row read = true ->
    readable_row bad = false ->
    List.length (coords ++ sheet_coords read) < 10 ->
    exists exc, scan_rows (read ++ bad :: unread) coords = Raise exc.
Proof.
  induction read as [|row read IH]; intros bad unread coords Hread Hbad Hlt.
  - cbn [app]. rewrite scan_rows_step.
    unfold readable_row in Hbad.
    destruct (row_cells bad) as [xy|]; [|eauto].
    destruct (non_null xy).
    + destruct (convert_pair xy) as [|exc]; [discriminate|].
      cbn [bind]. eauto.
    + discriminate.
  - cbn [forallb] in Hread. apply andb_true_iff in Hread as [Hrow Hread].
    cbn [app]. rewrite scan_rows_step.
    rewrite sheet_coords_cons in Hlt.
    destruct (readable_row_inv _ Hrow)
      as (xy & -> & [(-> & c & -> & Hc) | (-> & Hc)]);
      rewrite Hc in Hlt; cbn [bind].
    + change (c :: sheet_coords read) with ([c] ++ sheet_coords read) in Hlt.
      rewrite app_assoc in Hlt.
      destruct (10 <=? List.length (coords ++ [c]))%nat eqn:Hten.
      * apply Nat.leb_le in Hten. rewrite length_app in Hlt. lia.
      * now apply IH.
    + destruct (10 <=? List.length coords)%nat eqn:Hten.
      * apply Nat.leb_le in Hten. rewrite length_app in Hlt. lia.
      * now apply IH.
Qed.

(** C3 (as amended): the rows are read in file order from row 2; a row
    whose first two cells both hold a value contributes their conversion
    to floating point, any other row of two cells or more contributes
    nothing; the loop returns at the tenth coordinate, so the rows after
    it are never looked at; the result is the first [min(N, 10)]
    coordinates of the [N] contributing rows, and the extraction fails
    when there is none or when the file does not load.  It also fails
    on a row, met before the tenth coordinate, that has fewer than two
    cells or two values [float()] does not convert. *)
Theorem parse_coords_excel_rows (content : bytes) :
  (forall exc, load_workbook content = Raise exc ->
     parse_coords_excel content = Raise (invalid_excel (str exc)))
  /\ (forall ws read unread,
        load_workbook content = Ok ws ->
        iter_rows_from_2 ws = read ++ unread ->
        forallb readable_row read = true ->
        unread = [] \/ 10 <= List.length (sheet_coords read) ->
        let coords := firstn 10 (sheet_coords read) in
        List.length coords = Nat.min (List.length (sheet_coords read)) 10
        /\ parse_coords_excel content
           = match coords with
             | [] => Raise (invalid_excel "В Excel-файле нет координат")
             | _ :: _ => Ok coords
             end)
  /\ (forall ws read bad unread,
        load_workbook content = Ok ws ->
        iter_rows_from_2 ws = read ++ bad :: unread ->
        forallb readable_row read = true ->
        List.length (sheet_coords read) < 10 ->
        readable_row bad = false ->
        exists why, parse_coords_excel content = Raise (invalid_excel why)).
Proof.
  split; [|split].
  - intros exc Hload. unfold parse_coords_excel. now rewrite Hload.
  - intros ws read unread Hload Hrows Hread Hstop coords. split.
    + unfold coords. rewrite length_firstn. apply Nat.min_comm.
    + unfold parse_coords_excel.
      rewrite Hload. cbn [bind]. rewrite Hrows.
      rewrite scan_rows_readable; try assumption; [|cbn; lia].
      cbn [app bind]. fold coords.
      destruct coords; reflexivity.
  - intros ws read bad unread Hload Hrows Hread Hlt Hbad.
    unfold parse_coords_excel.
    rewrite Hload. cbn [bind]. rewrite Hrows.
    destruct (scan_rows_unreadable read bad unread [] Hread Hbad Hlt)
      as [exc ->].
    now exists (str exc).
Qed.

(* =============================================================== *)
(** *** The chart *)


(** C9: for a single coordinate the fit is not called and the chart holds
    the scatter and the connecting line of that point only, no fitted
    line and no equation; what the renderer returns is what matplotlib
    makes of that figure, the encoded chart or the exception it raises
    on it. *)
Theorem create_plot_single_point (c : coord) :
  plot_layers [c]
  = Ok [Scatter [fst c] [snd c]; Plot [fst c] [snd c] "-" None]
  /\ create_plot [c]
     = savefig_png [Scatter [fst c] [snd c];
                    Plot [fst c] [snd c] "-" None;
                    XLabel "X"; YLabel "Y"; Grid true; TightLayout].
Proof.
  destruct c as [x y]. split; reflexivity.
Qed.

(* =============================================================== *)
(** *** The rasterizer *)


(** Whatever [pdf_to_images] raises is a [ValueError]. *)
Lemma pdf_to_images_raises (pdf_bytes : bytes) (exc : exn) :
  pdf_to_images pdf_bytes = Raise exc -> cls exc = ValueError.
Proof.
  unfold pdf_to_images, try_except.
  match goal with |- match ?body with _ => _ end = _ -> _ => destruct body as [|e] end;
    [discriminate|].
  destruct (isinstance e MemoryError); intros [= <-]; reflexivity.
Qed.



Lemma encrypted_is_not_malformed : ~ malformed_document encrypted_document.
Proof.
  unfold encrypted_document. intros H.
  inversion H as [Heq|Heq|Heq|d Heq|n d Heq]; discriminate Heq.
Qed.

(* =============================================================== *)
(** *** The request handler *)

Lemma parse_coords_json_raises (s : string) (exc : exn) :
  parse_coords_json s = Raise exc -> cls exc = ValueError.
Proof.
  unfold parse_coords_json, try_except.
  match goal with |- match ?body with _ => _ end = _ -> _ => destruct body end;
    [discriminate|].
  now intros [= <-].
Qed.

Lemma parse_coords_excel_raises (content : bytes) (exc : exn) :
  parse_coords_excel content = Raise exc -> cls exc = ValueError.
Proof.
  unfold parse_coords_excel, try_except.
  match goal with |- match ?body with _ => _ end = _ -> _ => destruct body end;
    [discriminate|].
  now intros [= <-].
Qed.

Lemma select_coords_raises (req : request) (exc : exn) :
  select_coords req = Raise exc -> cls exc = ValueError.
Proof.
  unfold select_coords.
  destruct (excel_file req) as [f|].
  - apply parse_coords_excel_raises.
  - destruct (coords_json req) as [[|c s]|].
    + now intros [= <-].
    + apply parse_coords_json_raises.
    + now intros [= <-].
Qed.

Lemma pdf_stage_raises (req : request) (exc : exn) :
  pdf_stage req = Raise exc -> cls exc = ValueError.
Proof.
  unfold pdf_stage. destruct (pdf_file req) as [f|]; [|discriminate].
  apply pdf_to_images_raises.
Qed.

Lemma http_error_ValueError (exc : exn) :
  cls exc = ValueError -> http_error exc = HTTPException 400 (str exc).
Proof.
  intros Hcls. unfold http_error, isinstance. now rewrite Hcls.
Qed.

(** The body of the handler, stage by stage. *)
Lemma build_report_stages (req : request) :
  build_report req =
  (coords <- select_coords req ;;
   pdf_images <- pdf_stage req ;;
   plot_buf <- create_plot coords ;;
   output <- docx_save (report_blocks (description req) plot_buf pdf_images) ;;
   Ok (StreamingResponse output docx_media_type docx_disposition)).
Proof. reflexivity. Qed.

(** C6 (as amended): a failure is answered with one status.  Every
    failure of coordinate extraction or of rasterization is a
    [ValueError] and is answered with 400 and its message.  A failure of
    chart rendering or of report assembly is answered with 500, the
    diagnostic text in the message, unless the exception is a
    [ValueError]: that one is answered with 400 as well. *)
Theorem generate_doc_status (req : request) :
  (forall exc, select_coords req = Raise exc ->
     generate_doc req = HTTPException 400 (str exc))
  /\ (forall coords exc,
        select_coords req = Ok coords ->
        pdf_stage req = Raise exc ->
        generate_doc req = HTTPException 400 (str exc))
  /\ (forall coords pdf_images exc,
        select_coords req = Ok coords ->
        pdf_stage req = Ok pdf_images ->
        create_plot coords = Raise exc ->
        generate_doc req
        = if isinstance exc ValueError
          then HTTPException 400 (str exc)
          else HTTPException 500 ("Внутренняя ошибка сервера: " ++ str exc))
  /\ (forall coords pdf_images plot_buf exc,
        select_coords req = Ok coords ->
        pdf_stage req = Ok pdf_images ->
        create_plot coords = Ok plot_buf ->
        docx_save (report_blocks (description req) plot_buf pdf_images)
        = Raise exc ->
        generate_doc req
        = if isinstance exc ValueError
          then HTTPException 400 (str exc)
          else HTTPException 500 ("Внутренняя ошибка сервера: " ++ str exc))
  /\ (forall code msg, generate_doc req = HTTPException code msg ->
        (code = 400 \/ code = 500)%Z).
Proof.
  unfold generate_doc. rewrite build_report_stages.
  split; [|split; [|split; [|split]]].
  - intros exc Hsel. rewrite Hsel. cbn [bind].
    apply http_error_ValueError. now apply select_coords_raises with req.
  - intros coords exc Hsel Hpdf. rewrite Hsel, Hpdf. cbn [bind].
    apply http_error_ValueError. now apply pdf_stage_raises with req.
  - intros coords pdf_images exc Hsel Hpdf Hplot.
    rewrite Hsel, Hpdf. cbn [bind]. rewrite Hplot. reflexivity.
  - intros coords pdf_images plot_buf exc Hsel Hpdf Hplot Hsave.
    rewrite Hsel, Hpdf. cbn [bind]. rewrite Hplot. cbn [bind].
    rewrite Hsave. reflexivity.
  - intros code msg.
    match goal with |- match ?body with _ => _ end = _ -> _ =>
      destruct body as [resp|exc] eqn:Hbody end.
    + destruct (select_coords req); [|discriminate]. cbn [bind] in Hbody.
      destruct (pdf_stage req); [|discriminate]. cbn [bind] in Hbody.
      destruct (create_plot _); [|discriminate]. cbn [bind] in Hbody.
      destruct (docx_save _); [|discriminate]. cbn [bind] in Hbody.
      injection Hbody as <-. discriminate.
    + unfold http_error.
      destruct (isinstance exc ValueError); intros [= <- _]; auto.
Qed.

(** C7: with a spreadsheet in the request the coordinates are those of
    the spreadsheet extractor and the answer does not depend on the text
    field; with no spreadsheet and a text field absent or empty the
    handler fails at its first step with "no coordinates given",
    answered with 400, whatever the other fields are and whatever the
    other stages would do. *)
Theorem generate_doc_coordinate_source (req : request) :
  (forall f, excel_file req = Some f ->
     select_coords req = parse_coords_excel f
     /\ forall text,
          generate_doc req
          = generate_doc (Request (description req) text (Some f) (pdf_file req)))
  /\ (excel_file req = None ->
      coords_json req = None \/ coords_json req = Some EmptyString ->
      build_report req = Raise (Exn ValueError "Не переданы координаты")
      /\ generate_doc req = HTTPException 400 "Не переданы координаты").
Proof.
  split.
  - intros f Hf. split.
    + unfold select_coords. now rewrite Hf.
    + intros text. unfold generate_doc. rewrite !build_report_stages.
      unfold select_coords, pdf_stage. cbn [excel_file pdf_file description].
      now rewrite Hf.
  - intros Hnone Htext.
    assert (Hsel : select_coords req
                   = Raise (Exn ValueError "Не переданы координаты")).
    { unfold select_coords. rewrite Hnone. now destruct Htext as [-> | ->]. }
    unfold generate_doc. rewrite build_report_stages, Hsel. now cbn [bind].
Qed.


(* =============================================================== *)
(** *** What a returned coordinate sequence is *)

(** A sequence returned by the structured-text extractor comes from a
    payload that decoded to an array in which every two-element array
    converted; it is the first ten valid pairs of that array and holds
    between one and ten coordinates. *)
Theorem parse_coords_json_sound (s : string) (coords : list coord) :
  parse_coords_json s = Ok coords ->
  exists items,
    json_loads s = Ok (PyList items)
    /\ forallb convertible items = true
    /\ coords = firstn 10 (valid_pairs items)
    /\ 1 <= List.length coords <= 10.
Proof.
  intros Hok.
  destruct (json_loads s) as [v|exc] eqn:Hloads.
  2:{ unfold parse_coords_json in Hok. rewrite Hloads in Hok. discriminate. }
  destruct v as [| | | | |items| |];
    try (unfold parse_coords_json in Hok; rewrite Hloads in Hok; discriminate).
  rewrite (parse_coords_json_array _ _ Hloads) in Hok.
  exists items. split; [reflexivity|].
  destruct (forallb convertible items) eqn:Hconv.
  - rewrite collect_pairs_convertible in Hok by assumption. cbn [app] in Hok.
    destruct (valid_pairs items) as [|c rest]; [discriminate|].
    replace coords with (firstn 10 (c :: rest)) by congruence.
    split; [reflexivity|]. split; [reflexivity|].
    rewrite length_firstn. cbn [List.length]. lia.
  - destruct (collect_pairs_not_convertible items [] Hconv) as [exc Hexc].
    rewrite Hexc in Hok. discriminate.
Qed.

(** The loop over the rows, when it returns, returns the first ten
    coordinates of the list it started with followed by those of the
    rows. *)
Lemma scan_rows_sound (rows : list (list pyobj)) :
  forall (coords out : list coord),
    List.length coords < 10 ->
    scan_rows rows coords = Ok out ->
    out = firstn 10 (coords ++ sheet_coords rows).
Proof.
  induction rows as [|row rows IH]; intros coords out Hlt Hrun.
  - cbn [scan_rows] in Hrun. injection Hrun as <-.
    cbn [sheet_coords flat_map]. rewrite app_nil_r.
    now rewrite firstn_all2 by lia.
  - rewrite scan_rows_step in Hrun. rewrite sheet_coords_cons.
    unfold row_coord.
    destruct (row_cells row) as [xy|]; [|discriminate].
    destruct (non_null xy).
    + destruct (convert_pair xy) as [c|exc]; [|discriminate].
      cbn [bind] in Hrun.
      destruct (10 <=? List.length (coords ++ [c]))%nat eqn:Hten.
      * apply Nat.leb_le in Hten. rewrite length_app in Hten.
        cbn [List.length] in Hten. injection Hrun as <-.
        change (c :: sheet_coords rows) with ([c] ++ sheet_coords rows).
        rewrite app_assoc, firstn_app.
        replace (10 - List.length (coords ++ [c])) with 0
          by (rewrite length_app; cbn [List.length]; lia).
        rewrite firstn_all2 by (rewrite length_app; cbn [List.length]; lia).
        cbn [firstn]. now rewrite app_nil_r.
      * apply Nat.leb_gt in Hten.
        rewrite (IH _ _ Hten Hrun). now rewrite <- app_assoc.
    + cbn [bind] in Hrun.
      destruct (10 <=? List.length coords)%nat eqn:Hten.
      * apply Nat.leb_le in Hten. lia.
      * now apply IH.
Qed.

(** A sequence returned by the spreadsheet extractor comes from a
    workbook that loaded; it is the first ten of the coordinates that the
    data rows contribute, in row order, and holds between one and ten
    coordinates. *)
Theorem parse_coords_excel_sound (content : bytes) (coords : list coord) :
  parse_coords_excel content = Ok coords ->
  exists ws,
    load_workbook content = Ok ws
    /\ coords = firstn 10 (sheet_coords (iter_rows_from_2 ws))
    /\ 1 <= List.length coords <= 10.
Proof.
  unfold parse_coords_excel. intros Hok.
  destruct (load_workbook content) as [ws|exc]; [|discriminate].
  cbn [bind] in Hok. exists ws. split; [reflexivity|].
  destruct (scan_rows (iter_rows_from_2 ws) []) as [out|exc] eqn:Hrun;
    [|discriminate].
  apply scan_rows_sound in Hrun; [|cbn; lia]. cbn [app] in Hrun.
  cbn [bind] in Hok. destruct out as [|c out]; [discriminate|].
  cbn [try_except] in Hok. replace coords with (c :: out) by congruence.
  split; [exact Hrun|]. split; [cbn [List.length]; lia|].
  rewrite Hrun, length_firstn. lia.
Qed.

Lemma parse_coords_json_length (s : string) (coords : list coord) :
  parse_coords_json s = Ok coords -> 1 <= List.length coords <= 10.
Proof.
  unfold parse_coords_json, try_except.
  destruct (json_loads s) as [v|exc]; [|discriminate]. cbn [bind].
  destruct v as [| | | | |items| |]; try discriminate.
  destruct (collect_pairs items []) as [[|c l]|exc]; try discriminate.
  cbn [bind]. intros Hok.
  replace coords with (firstn 10 (c :: l)) by congruence.
  rewrite length_firstn. cbn [List.length]. lia.
Qed.

Lemma parse_coords_excel_length (content : bytes) (coords : list coord) :
  parse_coords_excel content = Ok coords -> 1 <= List.length coords <= 10.
Proof.
  unfold parse_coords_excel, try_except.
  destruct (load_workbook content) as [ws|exc]; [|discriminate]. cbn [bind].
  destruct (scan_rows (iter_rows_from_2 ws) []) as [out|exc] eqn:Hrun;
    [|discriminate].
  apply scan_rows_sound in Hrun; [|cbn; lia]. cbn [app] in Hrun.
  cbn [bind]. destruct out as [|c out]; [discriminate|]. intros Hok.
  replace coords with (c :: out) by congruence.
  split; [cbn [List.length]; lia|]. rewrite Hrun, length_firstn. lia.
Qed.

(** Whatever source the handler takes the coordinates from, it goes on
    with between one and ten of them. *)
Theorem select_coords_range (req : request) (coords : list coord) :
  select_coords req = Ok coords -> 1 <= List.length coords <= 10.
Proof.
  unfold select_coords.
  destruct (excel_file req) as [f|].
  - apply parse_coords_excel_length.
  - destruct (coords_json req) as [[|c s]|]; try discriminate.
    apply parse_coords_json_length.
Qed.

(* =============================================================== *)
(** *** The sorted copy the connecting line is drawn through *)

(** [b] may follow [a]: its abscissa is not smaller. *)
Definition may_follow (a b : coord) : Prop :=
  PrimFloat.ltb (fst b) (fst a) = false.

Lemma SFltb_irrefl (a : spec_float) : SFltb a a = false.
Proof.
  unfold SFltb. destruct a as [s|s| |s m e]; cbn [SFcompare];
    try destruct s; try reflexivity;
    change (Pos.compare_cont Eq) with Pos.compare;
    rewrite Z.compare_refl, Pos.compare_refl; reflexivity.
Qed.

Lemma SFltb_chain (a b c : spec_float) :
  SFltb a b = true -> SFltb c b = false -> SFltb c a = false.
Proof.
  unfold SFltb.
  destruct a as [sa|sa| |sa ma ea], b as [sb|sb| |sb mb eb],
           c as [sc|sc| |sc mc ec];
    cbn [SFcompare];
    repeat match goal with s : bool |- _ => destruct s end;
    try discriminate; try reflexivity;
    change (Pos.compare_cont Eq) with Pos.compare;
    repeat match goal with
           | |- context [Z.compare ?x ?y] => destruct (Z.compare_spec x y)
           | |- context [Pos.compare ?x ?y] => destruct (Pos.compare_spec x y)
           end; cbn [CompOpp]; try discriminate; try reflexivity; try lia.
Qed.

(** On floats: below [q] and [r] not below [q], so [r] is not below. *)
Lemma ltb_chain (p q r : float) :
  PrimFloat.ltb p q = true -> PrimFloat.ltb r q = false ->
  PrimFloat.ltb r p = false.
Proof. rewrite !ltb_spec. apply SFltb_chain. Qed.

Lemma ltb_asym (p q : float) :
  PrimFloat.ltb p q = true -> PrimFloat.ltb q p = false.
Proof.
  intros Hlt. apply (ltb_chain p q q Hlt).
  rewrite ltb_spec. apply SFltb_irrefl.
Qed.

Lemma insert_by_x_permutation (p : coord) (l : list coord) :
  Permutation (insert_by_x p l) (p :: l).
Proof.
  induction l as [|q l IH]; cbn [insert_by_x]; [reflexivity|].
  destruct (PrimFloat.ltb (fst p) (fst q)); [reflexivity|].
  rewrite IH. apply perm_swap.
Qed.

Lemma sorted_by_x_permutation (pairs : list coord) :
  Permutation (sorted_by_x pairs) pairs.
Proof.
  unfold sorted_by_x.
  enough (H : forall acc,
             Permutation (fold_left (fun acc p => insert_by_x p acc) pairs acc)
                         (acc ++ pairs)) by apply (H []).
  induction pairs as [|p pairs IH]; intros acc; cbn [fold_left].
  - now rewrite app_nil_r.
  - rewrite IH, insert_by_x_permutation. apply Permutation_middle.
Qed.

Lemma insert_by_x_sorted (p : coord) (l : list coord) :
  StronglySorted may_follow l -> StronglySorted may_follow (insert_by_x p l).
Proof.
  induction l as [|q l IH]; intros Hsorted; cbn [insert_by_x].
  - repeat constructor.
  - apply StronglySorted_inv in Hsorted as [Hl Hq].
    destruct (PrimFloat.ltb (fst p) (fst q)) eqn:Hpq.
    + constructor; [now constructor|].
      constructor; [now apply ltb_asym|].
      eapply Forall_impl; [|exact Hq].
      intros r Hr. now apply (ltb_chain (fst p) (fst q)).
    + constructor; [now apply IH|].
      eapply Permutation_Forall;
        [symmetry; apply insert_by_x_permutation|].
      now constructor.
Qed.

Lemma insert_by_x_last (p : coord) (l : list coord) :
  Forall (fun e => may_follow e p) l -> insert_by_x p l = l ++ [p].
Proof.
  induction 1 as [|q l Hq _ IH]; cbn [insert_by_x app]; [reflexivity|].
  unfold may_follow in Hq. now rewrite Hq, IH.
Qed.

Lemma StronglySorted_middle (a l : list coord) (p : coord) :
  StronglySorted may_follow (a ++ p :: l) ->
  Forall (fun e => may_follow e p) a.
Proof.
  induction a as [|e a IH]; cbn [app]; intros Hsorted; [constructor|].
  apply StronglySorted_inv in Hsorted as [Hrest He].
  constructor; [|now apply IH].
  rewrite Forall_forall in He. apply He, in_elt.
Qed.

(** The sorted copy is in ascending order of [x]: no point has a smaller
    abscissa than a point before it.  (Stated for abscissas that are
    numbers: on a NaN the comparison is no order.) *)
Theorem sorted_by_x_ascending (pairs : list coord) :
  (forall c, In c pairs -> is_nan (fst c) = false) ->
  StronglySorted may_follow (sorted_by_x pairs).
Proof.
  intros _. unfold sorted_by_x.
  enough (H : forall acc,
             StronglySorted may_follow acc ->
             StronglySorted may_follow
               (fold_left (fun acc p => insert_by_x p acc) pairs acc))
    by (apply H; constructor).
  induction pairs as [|p pairs IH]; intros acc Hacc; cbn [fold_left].
  - exact Hacc.
  - now apply IH, insert_by_x_sorted.
Qed.

(** Sorting keeps the order of the input where it is already ascending,
    ties included: a sequence in which no abscissa is smaller than an
    earlier one is its own sorted copy. *)
Theorem sorted_by_x_fixes_ascending (pairs : list coord) :
  StronglySorted may_follow pairs -> sorted_by_x pairs = pairs.
Proof.
  unfold sorted_by_x.
  enough (H : forall acc,
             StronglySorted may_follow (acc ++ pairs) ->
             fold_left (fun acc p => insert_by_x p acc) pairs acc
             = acc ++ pairs) by apply (H []).
  induction pairs as [|p pairs IH]; intros acc Hsorted; cbn [fold_left].
  - now rewrite app_nil_r.
  - rewrite (insert_by_x_last p acc) by now apply StronglySorted_middle with pairs.
    rewrite IH; rewrite <- app_assoc; [reflexivity|exact Hsorted].
Qed.

Lemma combine_fst_snd (l : list coord) : combine (map fst l) (map snd l) = l.
Proof.
  induction l as [|[x y] l IH]; cbn; [reflexivity|now rewrite IH].
Qed.

(** Whenever the artists are drawn, the first is the scatter of the
    coordinates in their order, the second the solid line, and the line
    goes through the same points as the scatter, each once. *)
Theorem plot_layers_same_points (coords : list coord) (ax : list artist) :
  plot_layers coords = Ok ax ->
  exists xs_s ys_s more,
    ax = Scatter (map fst coords) (map snd coords)
           :: Plot xs_s ys_s "-" None :: more
    /\ List.length xs_s = List.length ys_s
    /\ Permutation (combine xs_s ys_s) coords.
Proof.
  unfold plot_layers. rewrite combine_fst_snd. intros Hok.
  exists (map fst (sorted_by_x coords)), (map snd (sorted_by_x coords)).
  assert (Hperm : Permutation
                    (combine (map fst (sorted_by_x coords))
                             (map snd (sorted_by_x coords))) coords)
    by (rewrite combine_fst_snd; apply sorted_by_x_permutation).
  destruct (2 <=? List.length (map fst coords))%nat.
  - destruct (np_polyfit _ _ 1) as [p|e]; [|discriminate].
    cbn [bind app] in Hok. injection Hok as <-.
    eexists. split; [reflexivity|]. now rewrite !length_map.
  - injection Hok as <-. exists []. split; [reflexivity|].
    now rewrite !length_map.
Qed.

(* =============================================================== *)
(** *** The rasterizer, case by case *)

(** The page renders to the image: its pixmap at 150 dpi, encoded as
    PNG. *)
Definition renders (pg : page) (img : bytes) : Prop :=
  exists pix, get_pixmap pg 150 = Ok pix /\ tobytes pix "png" = Ok img.

(** What the caller reads when memory runs out outside the page loop. *)
Definition pdf_out_of_memory : exn :=
  Exn ValueError
      "Недостаточно памяти для обработки PDF. Попробуйте загрузить файл меньшего размера.".

(** The cause worded for a page that fails to render; [n] counts from
    one. *)
Definition page_cause (n : nat) (e : exn) : string :=
  if isinstance e MemoryError
  then "Недостаточно памяти для рендеринга страницы " ++ str_of_nat n
       ++ ". PDF слишком большой или содержит очень высокое разрешение."
  else "Ошибка рендеринга страницы " ++ str_of_nat n ++ ": " ++ str e.

(** The cause worded for a [RuntimeError] of [fitz.open] that does not
    mention encryption. *)
Definition open_cause (e : exn) : string :=
  if contains "cannot open broken document" (lower (str e))
  then "PDF повреждён или имеет неверный формат"
  else if contains "xref" (lower (str e)) || contains "no objects" (lower (str e))
       then "PDF имеет повреждённую структуру"
       else "Невозможно открыть PDF: " ++ str e.

Lemma render_page_renders (n : nat) (pg : page) (img : bytes) :
  renders pg img -> render_page n pg = Ok img.
Proof.
  intros (pix & Hpix & Himg). unfold render_page. now rewrite Hpix; cbn [bind]; rewrite Himg.
Qed.

Lemma render_pages_all (doc : list page) (imgs : list bytes) :
  Forall2 renders doc imgs ->
  forall n images, render_pages n doc images = Ok (images ++ imgs).
Proof.
  induction 1 as [|pg img doc imgs Hpg _ IH]; intros n images; cbn [render_pages].
  - now rewrite app_nil_r.
  - rewrite (render_page_renders n _ _ Hpg). cbn [bind].
    rewrite IH. now rewrite <- app_assoc.
Qed.

Lemma render_pages_first_failure (good : list page) (imgs : list bytes) :
  Forall2 renders good imgs ->
  forall n images bad rest exc,
    render_page (n + List.length good) bad = Raise exc ->
    render_pages n (good ++ bad :: rest) images = Raise exc.
Proof.
  induction 1 as [|pg img good imgs Hpg _ IH];
    intros n images bad rest exc Hbad; cbn [render_pages app].
  - cbn [List.length] in Hbad. rewrite Nat.add_0_r in Hbad. now rewrite Hbad.
  - rewrite (render_page_renders n _ _ Hpg). cbn [bind].
    apply IH. cbn [List.length] in Hbad. now rewrite Nat.add_succ_comm.
Qed.

(** When the document opens and every page renders, the rasterizer
    returns the images of all pages, in page order; for a document
    without pages, the empty list. *)
Theorem pdf_to_images_all_pages (pdf_bytes : bytes) (doc : list page)
        (imgs : list bytes) :
  pdf_bytes <> [] ->
  fitz_open pdf_bytes = Ok doc ->
  Forall2 renders doc imgs ->
  pdf_to_images pdf_bytes = Ok imgs.
Proof.
  intros Hne Hopen Hall. unfold pdf_to_images, open_pdf.
  destruct pdf_bytes as [|b0 rest]; [contradiction|].
  rewrite Hopen. cbn [try_except bind].
  now rewrite (render_pages_all _ _ Hall).
Qed.

(** When a page fails to render after the pages before it rendered, the
    rasterizer fails with the number of that page, counted from one: as
    a lack of memory when the failure is a [MemoryError], with the
    diagnostic text otherwise. *)
Theorem pdf_to_images_first_failing_page (pdf_bytes : bytes)
        (good rest : list page) (bad : page) (imgs : list bytes) (e : exn) :
  pdf_bytes <> [] ->
  fitz_open pdf_bytes = Ok (good ++ bad :: rest) ->
  Forall2 renders good imgs ->
  (pix <- get_pixmap bad 150 ;; tobytes pix "png") = Raise e ->
  pdf_to_images pdf_bytes
  = Raise (pdf_error (page_cause (List.length good + 1) e)).
Proof.
  intros Hne Hopen Hgood Hbad. unfold pdf_to_images, open_pdf.
  destruct pdf_bytes as [|b0 more]; [contradiction|].
  rewrite Hopen. cbn [try_except bind].
  rewrite (render_pages_first_failure _ _ Hgood 0 [] bad rest
             (Exn ValueError (page_cause (List.length good + 1) e))).
  - reflexivity.
  - unfold render_page, page_cause. cbn [Nat.add]. rewrite Hbad.
    cbn [try_except]. destruct (isinstance e MemoryError); reflexivity.
Qed.

(** How a [RuntimeError] of [fitz.open] reaches the caller. *)
Lemma pdf_to_images_open_runtime (pdf_bytes : bytes) (e : exn) :
  pdf_bytes <> [] ->
  fitz_open pdf_bytes = Raise e ->
  isinstance e RuntimeError = true ->
  pdf_to_images pdf_bytes
  = Raise (pdf_error
             (if contains "encrypted" (lower (str e))
                 || contains "password" (lower (str e))
              then encrypted_document
              else open_cause e)).
Proof.
  intros Hne Hopen Hcls. unfold pdf_to_images, open_pdf, open_cause.
  destruct pdf_bytes as [|b0 rest]; [contradiction|].
  rewrite Hopen. cbn [try_except]. rewrite Hcls.
  destruct (contains "encrypted" (lower (str e))
            || contains "password" (lower (str e))); [reflexivity|].
  destruct (contains "cannot open broken document" (lower (str e)));
    [reflexivity|].
  destruct (contains "xref" (lower (str e))
            || contains "no objects" (lower (str e))); reflexivity.
Qed.

Lemma open_cause_malformed (e : exn) : malformed_document (open_cause e).
Proof.
  unfold open_cause.
  destruct (contains "cannot open broken document" (lower (str e)));
    [constructor|].
  destruct (contains "xref" (lower (str e))
            || contains "no objects" (lower (str e))); constructor.
Qed.

Lemma pdf_error_inj (c1 c2 : string) : pdf_error c1 = pdf_error c2 -> c1 = c2.
Proof. unfold pdf_error. cbn. now intros [= ->]. Qed.

(** A [RuntimeError] of [fitz.open] that does not mention encryption is
    reported as a malformed document: "broken or of a wrong format" on
    "cannot open broken document", else "damaged structure" on "xref" or
    "no objects", else "cannot be opened" followed by the text of the
    error. *)
Theorem pdf_to_images_open_failure (pdf_bytes : bytes) (e : exn) :
  pdf_bytes <> [] ->
  fitz_open pdf_bytes = Raise e ->
  isinstance e RuntimeError = true ->
  contains "encrypted" (lower (str e)) || contains "password" (lower (str e))
  = false ->
  pdf_to_images pdf_bytes = Raise (pdf_error (open_cause e))
  /\ malformed_document (open_cause e).
Proof.
  intros Hne Hopen Hcls Hmsg. split; [|apply open_cause_malformed].
  rewrite (pdf_to_images_open_runtime _ _ Hne Hopen Hcls). now rewrite Hmsg.
Qed.

(** A [RuntimeError] of [fitz.open] is reported as a password-protected
    document exactly when its text, in lower case, contains "encrypted"
    or "password". *)
Theorem pdf_to_images_encrypted_iff (pdf_bytes : bytes) (e : exn) :
  pdf_bytes <> [] ->
  fitz_open pdf_bytes = Raise e ->
  isinstance e RuntimeError = true ->
  pdf_to_images pdf_bytes = Raise (pdf_error encrypted_document)
  <-> contains "encrypted" (lower (str e)) || contains "password" (lower (str e))
      = true.
Proof.
  intros Hne Hopen Hcls.
  rewrite (pdf_to_images_open_runtime _ _ Hne Hopen Hcls).
  destruct (contains "encrypted" (lower (str e))
            || contains "password" (lower (str e))).
  - split; reflexivity.
  - split; [|discriminate]. intros Hres.
    assert (Hsame : open_cause e = encrypted_document)
      by (apply pdf_error_inj; congruence).
    elim encrypted_is_not_malformed. rewrite <- Hsame.
    apply open_cause_malformed.
Qed.

(** A failure of [fitz.open] that is not a [RuntimeError] is not
    classified by its text: a [MemoryError] is reported as a lack of
    memory, with the advice to upload a smaller file, and any other
    exception with its own text behind the prefix of the rasterizer. *)
Theorem pdf_to_images_open_other (pdf_bytes : bytes) (e : exn) :
  pdf_bytes <> [] ->
  fitz_open pdf_bytes = Raise e ->
  isinstance e RuntimeError = false ->
  pdf_to_images pdf_bytes
  = Raise (if isinstance e MemoryError then pdf_out_of_memory
           else pdf_error (str e)).
Proof.
  intros Hne Hopen Hcls. unfold pdf_to_images, open_pdf.
  destruct pdf_bytes as [|b0 rest]; [contradiction|].
  rewrite Hopen. cbn [try_except bind]. rewrite Hcls.
  cbn [try_except bind].
  destruct (isinstance e MemoryError); reflexivity.
Qed.

(** An empty upload is refused as "the PDF file is empty" before PyMuPDF
    is called, and the request that carries it, its coordinates being
    good, is answered with 400 and that message. *)
Theorem pdf_to_images_empty :
  pdf_to_images [] = Raise (pdf_error "PDF-файл пустой")
  /\ malformed_document "PDF-файл пустой"
  /\ forall req coords,
       select_coords req = Ok coords ->
       pdf_file req = Some [] ->
       generate_doc req = HTTPException 400 "Ошибка PDF: PDF-файл пустой".
Proof.
  split; [reflexivity|split; [constructor|]].
  intros req coords Hsel Hpdf.
  unfold generate_doc. rewrite build_report_stages, Hsel. cbn [bind].
  unfold pdf_stage. rewrite Hpdf. reflexivity.
Qed.

(** Every exception that leaves a stage carries the prefix of the stage:
    "invalid coordinates" for the text extractor, "Excel error" for the
    spreadsheet extractor and, for the rasterizer, "PDF error" or the
    lack-of-memory message. *)
Theorem stage_errors_are_worded :
  (forall s exc, parse_coords_json s = Raise exc ->
     exists why, exc = invalid_json why)
  /\ (forall content exc, parse_coords_excel content = Raise exc ->
        exists why, exc = invalid_excel why)
  /\ (forall pdf_bytes exc, pdf_to_images pdf_bytes = Raise exc ->
        exc = pdf_out_of_memory \/ exists cause, exc = pdf_error cause).
Proof.
  split; [|split].
  - intros s exc. unfold parse_coords_json, try_except.
    match goal with |- match ?body with _ => _ end = _ -> _ =>
      destruct body as [|e] end; [discriminate|].
    intros [= <-]. now exists (str e).
  - intros content exc. unfold parse_coords_excel, try_except.
    match goal with |- match ?body with _ => _ end = _ -> _ =>
      destruct body as [|e] end; [discriminate|].
    intros [= <-]. now exists (str e).
  - intros pdf_bytes exc. unfold pdf_to_images, try_except.
    match goal with |- match ?body with _ => _ end = _ -> _ =>
      destruct body as [|e] end; [discriminate|].
    destruct (isinstance e MemoryError); intros [= <-].
    + now left.
    + right. now exists (str e).
Qed.

(* =============================================================== *)
(** *** The report and the answer *)

Lemma page_blocks_length (pdf_images : list bytes) :
  forall i, List.length (page_blocks i pdf_images) = 2 * List.length pdf_images.
Proof.
  induction pdf_images as [|img rest IH]; intros i; cbn [page_blocks List.length].
  - reflexivity.
  - rewrite IH. lia.
Qed.

Lemma page_blocks_nth (pdf_images : list bytes) :
  forall i k img,
    nth_error pdf_images k = Some img ->
    nth_error (page_blocks i pdf_images) (2 * k)
    = Some (Paragraph ("Страница " ++ str_of_nat (i + k) ++ ":"))
    /\ nth_error (page_blocks i pdf_images) (2 * k + 1) = Some (Picture img 6).
Proof.
  induction pdf_images as [|img0 rest IH]; intros i k img Hk.
  - destruct k; discriminate.
  - destruct k as [|k]; cbn [page_blocks].
    + injection Hk as <-. rewrite Nat.add_0_r. now split.
    + replace (2 * S k) with (S (S (2 * k))) by lia.
      replace (i + S k) with (S i + k) by lia.
      cbn [nth_error Nat.add]. now apply IH.
Qed.

(** The report holds five blocks followed by two blocks for each page:
    the chart is the fifth block, and the image of page [k + 1] comes
    right after the paragraph that names it, pages in order and numbered
    from one; all pictures are six inches wide. *)
Theorem report_blocks_layout (description : option string) (plot_buf : bytes)
        (pdf_images : list bytes) :
  let blocks := report_blocks description plot_buf pdf_images in
  List.length blocks = 5 + 2 * List.length pdf_images
  /\ nth_error blocks 4 = Some (Picture plot_buf 6)
  /\ forall k img,
       nth_error pdf_images k = Some img ->
       nth_error blocks (5 + 2 * k)
       = Some (Paragraph ("Страница " ++ str_of_nat (k + 1) ++ ":"))
       /\ nth_error blocks (6 + 2 * k) = Some (Picture img 6).
Proof.
  intros blocks. unfold blocks, report_blocks. split; [|split].
  - rewrite length_app, page_blocks_length. reflexivity.
  - reflexivity.
  - intros k img Hk.
    destruct (page_blocks_nth pdf_images 1 k img Hk) as [Hlabel Himg].
    replace (6 + 2 * k) with (5 + (2 * k + 1)) by lia.
    replace (k + 1) with (1 + k) by lia.
    cbn [app nth_error Nat.add]. now split.
Qed.

(** When its four stages succeed the handler answers with the saved
    report, as an attachment named [generated_document.docx] of the
    Word media type. *)
Theorem generate_doc_success (req : request) (coords : list coord)
        (pdf_images : list bytes) (plot_buf output : bytes) :
  select_coords req = Ok coords ->
  pdf_stage req = Ok pdf_images ->
  create_plot coords = Ok plot_buf ->
  docx_save (report_blocks (description req) plot_buf pdf_images) = Ok output ->
  generate_doc req
  = StreamingResponse output
      "application/vnd.openxmlformats-officedocument.wordprocessingml.document"
      "attachment; filename=generated_document.docx".
Proof.
  intros Hsel Hpdf Hplot Hsave.
  unfold generate_doc. rewrite build_report_stages.
  rewrite Hsel, Hpdf. cbn [bind]. rewrite Hplot. cbn [bind].
  now rewrite Hsave.
Qed.

(* =============================================================== *)
(** *** The substring test *)

Lemma prefix_spec (needle hay : string) :
  String.prefix needle hay = true
  <-> exists post, hay = (needle ++ post)%string.
Proof.
  revert hay. induction needle as [|a needle IH]; intros hay.
  - split; [|now destruct hay]. intros _. now exists hay.
  - destruct hay as [|b hay]; cbn [String.prefix append].
    + split; [discriminate|]. intros [post H]. discriminate.
    + destruct (ascii_dec a b) as [->|Hab].
      * rewrite IH. split; intros [post H]; exists post; congruence.
      * split; [discriminate|]. intros [post H]. congruence.
Qed.

(** [contains needle hay] holds exactly when [needle] occurs in [hay]:
    the test the rasterizer applies to the text of an open failure. *)
Theorem contains_spec (needle hay : string) :
  contains needle hay = true
  <-> exists pre post, hay = (pre ++ needle ++ post)%string.
Proof.
  split.
  - induction hay as [|c hay IH]; cbn [contains]; intros H;
      apply orb_true_iff in H as [H|H]; try discriminate.
    + apply prefix_spec in H as [post ->]. now exists EmptyString, post.
    + apply prefix_spec in H as [post ->]. now exists EmptyString, post.
    + destruct (IH H) as (pre & post & ->). now exists (String c pre), post.
  - intros (pre & post & ->). induction pre as [|c pre IH].
    + cbn [append].
      assert (H : String.prefix needle (needle ++ post) = true)
        by (apply prefix_spec; now exists post).
      destruct (needle ++ post)%string; cbn [contains]; now rewrite H.
    + cbn [append contains]. rewrite IH. apply orb_true_r.
Qed.

(** A request with a PDF whose pages all render and whose other stages
    succeed is answered with the saved report of five blocks and two
    more for each page of the document. *)
Theorem generate_doc_pages_in_report (req : request) (pdf_bytes : bytes)
        (doc : list page) (imgs : list bytes) (coords : list coord)
        (plot_buf output : bytes) :
  pdf_file req = Some pdf_bytes ->
  pdf_bytes <> [] ->
  fitz_open pdf_bytes = Ok doc ->
  Forall2 renders doc imgs ->
  select_coords req = Ok coords ->
  create_plot coords = Ok plot_buf ->
  docx_save (report_blocks (description req) plot_buf imgs) = Ok output ->
  List.length (report_blocks (description req) plot_buf imgs)
  = 5 + 2 * List.length doc
  /\ generate_doc req
     = StreamingResponse output docx_media_type docx_disposition.
Proof.
  intros Hpdf Hne Hopen Hall Hsel Hplot Hsave. split.
  - unfold report_blocks. rewrite length_app, page_blocks_length.
    now rewrite (Forall2_length Hall).
  - assert (Hpages : pdf_stage req = Ok imgs).
    { unfold pdf_stage, pdf_to_images, open_pdf. rewrite Hpdf.
      destruct pdf_bytes as [|b0 rest]; [contradiction|].
      rewrite Hopen. cbn [try_except bind].
      now rewrite (render_pages_all _ _ Hall). }
    unfold generate_doc. rewrite build_report_stages.
    rewrite Hsel, Hpages. cbn [bind]. rewrite Hplot. cbn [bind].
    now rewrite Hsave.
Qed.

(* =============================================================== *)
(** *** Which failure the extractors report *)

Lemma collect_pairs_first_bad (good : list pyobj) :
  forall v ab rest coords exc,
    forallb convertible good = true ->
    pair_shape v = Some ab ->
    convert_pair ab = Raise exc ->
    collect_pairs (good ++ v :: rest) coords = Raise exc.
Proof.
  induction good as [|g good IH]; intros v ab rest coords exc Hgood Hshape Hbad;
    cbn [app]; rewrite collect_pairs_step.
  - now rewrite Hshape, Hbad.
  - cbn [forallb] in Hgood. apply andb_true_iff in Hgood as [Hg Hgood].
    unfold convertible in Hg.
    destruct (pair_shape g) as [gab|]; [|now apply IH with ab].
    destruct (convert_pair gab); [|discriminate].
    cbn [bind]. now apply IH with ab.
Qed.

(** The text extractor reports the first two-element array, in the order
    of the payload, that holds a value [float()] does not convert: the
    message is the text of that conversion error behind the prefix of
    the extractor, whatever follows in the array. *)
Theorem parse_coords_json_first_bad_pair (s : string)
        (good rest : list pyobj) (a b : pyobj) (exc : exn) :
  json_loads s = Ok (PyList (good ++ PyList [a; b] :: rest)) ->
  forallb convertible good = true ->
  convert_pair (a, b) = Raise exc ->
  parse_coords_json s = Raise (invalid_json (str exc)).
Proof.
  intros Hloads Hgood Hbad.
  rewrite (parse_coords_json_array _ _ Hloads).
  now rewrite (collect_pairs_first_bad good (PyList [a; b]) (a, b) rest []
                 exc Hgood eq_refl Hbad).
Qed.

Lemma scan_rows_skip_readable (read : list (list pyobj)) :
  forall (more : list (list pyobj)) (coords : list coord),
    forallb readable_row read = true ->
    List.length (coords ++ sheet_coords read) < 10 ->
    scan_rows (read ++ more) coords
    = scan_rows more (coords ++ sheet_coords read).
Proof.
  induction read as [|row read IH]; intros more coords Hread Hlt.
  - cbn [sheet_coords flat_map app]. now rewrite app_nil_r.
  - cbn [forallb] in Hread. apply andb_true_iff in Hread as [Hrow Hread].
    cbn [app]. rewrite scan_rows_step. rewrite sheet_coords_cons in *.
    destruct (readable_row_inv _ Hrow)
      as (xy & -> & [(-> & c & -> & Hc) | (-> & Hc)]);
      rewrite Hc in *; cbn [bind].
    + change (c :: sheet_coords read) with ([c] ++ sheet_coords read) in *.
      rewrite app_assoc in *.
      destruct (10 <=? List.length (coords ++ [c]))%nat eqn:Hten.
      * apply Nat.leb_le in Hten. rewrite length_app in Hlt. lia.
      * now apply IH.
    + destruct (10 <=? List.length coords)%nat eqn:Hten.
      * apply Nat.leb_le in Hten. rewrite length_app in Hlt. lia.
      * now apply IH.
Qed.

(** The spreadsheet extractor reports the first row, met before the
    tenth coordinate, that it cannot read: a row of fewer than two cells
    with the unpacking error and the number of its cells, a row of two
    values [float()] does not convert with the text of that conversion
    error, each behind the prefix of the extractor. *)
Theorem parse_coords_excel_first_bad_row (content : bytes)
        (ws read unread : list (list pyobj)) (bad : list pyobj) :
  load_workbook content = Ok ws ->
  iter_rows_from_2 ws = read ++ bad :: unread ->
  forallb readable_row read = true ->
  List.length (sheet_coords read) < 10 ->
  (List.length bad < 2 ->
   parse_coords_excel content
   = Raise (invalid_excel
              ("not enough values to unpack (expected 2, got "
                 ++ str_of_nat (List.length bad) ++ ")")))
  /\ (forall xy exc,
        row_cells bad = Some xy ->
        non_null xy = true ->
        convert_pair xy = Raise exc ->
        parse_coords_excel content = Raise (invalid_excel (str exc))).
Proof.
  intros Hload Hrows Hread Hlt.
  assert (Hrun : parse_coords_excel content
                 = try_except
                     (coords <- scan_rows (bad :: unread) (sheet_coords read) ;;
                      match coords with
                      | [] => Raise (Exn ValueError "В Excel-файле нет координат")
                      | _ :: _ => Ok coords
                      end)
                     (fun exc => Raise (invalid_excel (str exc)))).
  { unfold parse_coords_excel. rewrite Hload. cbn [bind]. rewrite Hrows.
    now rewrite scan_rows_skip_readable by assumption. }
  rewrite Hrun, scan_rows_step. split.
  - intros Hshort. unfold row_cells.
    rewrite firstn_all2 by lia.
    destruct bad as [|x [|y bad]]; [reflexivity|reflexivity|cbn in Hshort; lia].
  - intros xy exc -> -> ->. reflexivity.
Qed.

End Pipeline.

(* ================================================================= *)
(** ** The pipeline on examples *)

Import Fixtures.

Arguments pdf_to_images {page pixmap}.
Arguments generate_doc _ _ _ _ _ _ {page pixmap}.

Local Abbreviation json := (parse_coords_json json_loads float_of_str).
Local Abbreviation excel ws := (parse_coords_excel float_of_str (workbook ws)).
Local Abbreviation handler :=
  (generate_doc json_loads float_of_str (workbook long_sheet) np_polyfit
     format_3f savefig_png (pdf_document [0; 1; 2]) get_pixmap tobytes lower).

(** C1, counterexample: the array [[[1, 2], [null, 3]]] holds the valid
    pair [[1, 2]], and the extractor returns no sequence at all. *)
Lemma parse_coords_json_null_in_pair :
  json_loads "[[1, 2], [null, 3]]"
  = Ok (PyList [PyList [PyInt 1; PyInt 2]; PyList [PyNone; PyInt 3]])
  /\ valid_pairs float_of_str
       [PyList [PyInt 1; PyInt 2]; PyList [PyNone; PyInt 3]]
     = [(1, 2)%float]
  /\ json "[[1, 2], [null, 3]]"
     = Raise (Exn ValueError
                "Некорректные координаты: float() argument must be a string or a real number, not 'NoneType'").
Proof. repeat split. Qed.

(** C1, witness: of twelve pairs the first ten come back, in order. *)
Lemma parse_coords_json_first_ten_witness :
  json_loads twelve_pairs
  = Ok (PyList (map (fun n => int_pair n n) [0; 1; 2; 3; 4; 5; 6; 7; 8; 9; 10; 11]%Z))
  /\ json twelve_pairs
     = Ok [(0, 0); (1, 1); (2, 2); (3, 3); (4, 4);
           (5, 5); (6, 6); (7, 7); (8, 8); (9, 9)]%float
  /\ List.length [(0, 0); (1, 1); (2, 2); (3, 3); (4, 4);
                  (5, 5); (6, 6); (7, 7); (8, 8); (9, 9)]%float
     = Nat.min 12 10.
Proof.
  split; [reflexivity|].
  apply (parse_coords_json_first_ten json_loads float_of_str twelve_pairs
           (map (fun n => int_pair n n) [0; 1; 2; 3; 4; 5; 6; 7; 8; 9; 10; 11]%Z)).
  - reflexivity.
  - reflexivity.
  - discriminate.
Defined.

(** C2, counterexample: in [[[1, 2], ["abc", 3]]] the second element
    holds a value [float()] does not convert; it is not skipped, the pair
    [[1, 2]] is not returned, the payload is rejected. *)
Lemma parse_coords_json_text_in_pair :
  json_loads text_in_pair
  = Ok (PyList [PyList [PyInt 1; PyInt 2]; PyList [PyStr "abc"; PyInt 3]])
  /\ valid_pairs float_of_str
       [PyList [PyInt 1; PyInt 2]; PyList [PyStr "abc"; PyInt 3]]
     = [(1, 2)%float]
  /\ json text_in_pair
     = Raise (Exn ValueError
                "Некорректные координаты: could not convert string to float: 'abc'").
Proof. repeat split. Qed.

(** C2, witness: wrongly shaped elements are skipped; an array of them
    alone fails as the empty array does; an object and a text that does
    not decode are rejected. *)
Lemma parse_coords_json_filtering_witness :
  json "[[0, 0], 7, [2, 4], [1]]" = Ok [(0, 0); (2, 4)]%float
  /\ json "[7, [1], [1, 2, 3]]" = Raise (invalid_json "Список координат пуст")
  /\ json "[]" = Raise (invalid_json "Список координат пуст")
  /\ json "{}" = Raise (invalid_json "JSON должен быть списком координат")
  /\ json "not json"
     = Raise (invalid_json "Expecting value: line 1 column 1 (char 0)").
Proof.
  split; [|split; [|split; [|split]]].
  - destruct (parse_coords_json_filtering json_loads float_of_str
                "[[0, 0], 7, [2, 4], [1]]") as (_ & _ & H).
    destruct (H _ eq_refl) as (Hsome & _).
    apply Hsome; [reflexivity|discriminate].
  - destruct (parse_coords_json_filtering json_loads float_of_str
                "[7, [1], [1, 2, 3]]") as (_ & _ & H).
    destruct (H _ eq_refl) as (_ & _ & Hshape & _).
    apply Hshape. intros v [<- | [<- | [<- | []]]]; reflexivity.
  - destruct (parse_coords_json_filtering json_loads float_of_str "[]")
      as (_ & _ & H).
    destruct (H _ eq_refl) as (_ & Hnone & _).
    apply Hnone; reflexivity.
  - destruct (parse_coords_json_filtering json_loads float_of_str "{}")
      as (_ & H & _).
    apply (H _ eq_refl). discriminate.
  - destruct (parse_coords_json_filtering json_loads float_of_str "not json")
      as (H & _).
    apply (H _ eq_refl).
Defined.

(** C10, witness: [[["3.5", true]]] is the coordinate [(3.5, 1.0)]. *)
Lemma parse_coords_json_coerces_witness :
  json_loads quoted_pair = Ok (PyList [PyList [PyStr "3.5"; PyBool true]])
  /\ json quoted_pair = Ok [(3.5, 1)%float].
Proof.
  split; [reflexivity|].
  apply (parse_coords_json_coerces json_loads float_of_str quoted_pair
           (PyStr "3.5") (PyBool true)); reflexivity.
Defined.
(** C3, counterexample: the one data row of the sheet holds ["abc"] and
    [2.0], both cells hold a value, and the extraction fails instead of
    returning one coordinate. *)
Lemma parse_coords_excel_text_cell :
  iter_rows_from_2 text_sheet = [[PyStr "abc"; PyFloat 2]]
  /\ non_null (PyStr "abc", PyFloat 2) = true
  /\ excel text_sheet xlsx_magic
     = Raise (Exn ValueError
                "Ошибка Excel: could not convert string to float: 'abc'").
Proof. repeat split. Qed.

(** C3, witness: the sheet has eleven rows of numbers and a blank row
    among them; the ten coordinates of the first ten rows of numbers come
    back, and the row of text that follows the tenth is never read.  A
    sheet of a header alone has no coordinates. *)
Lemma parse_coords_excel_rows_witness :
  excel long_sheet xlsx_magic
  = Ok [(1, 1); (2, 4); (3, 9); (4, 16); (5, 25);
        (6, 36); (7, 49); (8, 64); (9, 81); (10, 100)]%float
  /\ readable_row float_of_str [PyStr "total"; PyStr "n/a"; PyNone] = false
  /\ excel [[PyStr "x"; PyStr "y"]] xlsx_magic
     = Raise (invalid_excel "В Excel-файле нет координат").
Proof.
  split; [|split; [reflexivity|]].
  - destruct (parse_coords_excel_rows float_of_str (workbook long_sheet)
                xlsx_magic) as (_ & H & _).
    destruct (H long_sheet (firstn 11 (skipn 1 long_sheet))
                (skipn 12 long_sheet) eq_refl eq_refl eq_refl)
      as (_ & Hrun).
    + right. vm_compute. lia.
    + exact Hrun.
  - destruct (parse_coords_excel_rows float_of_str
                (workbook [[PyStr "x"; PyStr "y"]]) xlsx_magic) as (_ & H & _).
    destruct (H [[PyStr "x"; PyStr "y"]] [] [] eq_refl eq_refl eq_refl)
      as (_ & Hrun).
    + now left.
    + exact Hrun.
Defined.



(** C9, counterexample: matplotlib raises on the figure of the single
    coordinate [(1e308, -1e308)], and so does the renderer: no chart image
    is returned. *)
Lemma create_plot_single_point_raises :
  exists msg,
    create_plot np_polyfit format_3f (savefig_png_out_of_scale msg)
                [(1e308, -1e308)%float]
    = Raise (Exn ValueError msg).
Proof. exists EmptyString. reflexivity. Qed.

(** C6, counterexample: the description starts with an escape character, the
    extraction and the chart succeed, python-docx fails to assemble the
    report, and the failure is answered with 400, not 500. *)
Lemma generate_doc_assembly_400 :
  json "[[0, 0], [2, 4]]" = Ok [(0, 0); (2, 4)]%float
  /\ (exists plot_buf,
        create_plot np_polyfit format_3f savefig_png [(0, 0); (2, 4)]%float
        = Ok plot_buf
        /\ docx_save (report_blocks (Some pasted_description) plot_buf [])
           = Raise (Exn ValueError
                      "All strings must be XML compatible: Unicode or ASCII, no NULL bytes or control characters"))
  /\ handler docx_save
       (Request (Some pasted_description) (Some "[[0, 0], [2, 4]]") None None)
     = HTTPException 400
         "All strings must be XML compatible: Unicode or ASCII, no NULL bytes or control characters".
Proof.
  split; [reflexivity|split; [|reflexivity]].
  eexists. split; reflexivity.
Qed.

(** C6, witness: a payload that does not decode and an empty PDF are
    answered with 400; running out of memory while the report is saved
    is answered with 500. *)
Lemma generate_doc_status_witness :
  handler docx_save (Request None (Some "not json") None None)
  = HTTPException 400
      "Некорректные координаты: Expecting value: line 1 column 1 (char 0)"
  /\ handler docx_save (Request None (Some "[[5, 5]]") None (Some []))
     = HTTPException 400 "Ошибка PDF: PDF-файл пустой"
  /\ handler docx_save_fails (Request None (Some "[[5, 5]]") None None)
     = HTTPException 500 "Внутренняя ошибка сервера: ".
Proof.
  split; [|split].
  - destruct (generate_doc_status json_loads float_of_str (workbook long_sheet)
                np_polyfit format_3f savefig_png _ _ (pdf_document [0; 1; 2])
                get_pixmap tobytes lower docx_save
                (Request None (Some "not json") None None)) as (H & _).
    apply (H _ eq_refl).
  - destruct (generate_doc_status json_loads float_of_str (workbook long_sheet)
                np_polyfit format_3f savefig_png _ _ (pdf_document [0; 1; 2])
                get_pixmap tobytes lower docx_save
                (Request None (Some "[[5, 5]]") None (Some [])))
      as (_ & H & _).
    apply (H _ _ eq_refl eq_refl).
  - destruct (generate_doc_status json_loads float_of_str (workbook long_sheet)
                np_polyfit format_3f savefig_png _ _ (pdf_document [0; 1; 2])
                get_pixmap tobytes lower docx_save_fails
                (Request None (Some "[[5, 5]]") None None))
      as (_ & _ & _ & H & _).
    apply (H _ _ _ _ eq_refl eq_refl eq_refl eq_refl).
Defined.

(** C7, witness: with the long sheet and a text payload in one request the
    answer is the one given with any other text payload; with neither,
    the answer is 400 although a PDF is there. *)
Lemma generate_doc_coordinate_source_witness :
  select_coords json_loads float_of_str (workbook long_sheet)
    (Request None (Some "[[5, 5]]") (Some xlsx_magic) None)
  = excel long_sheet xlsx_magic
  /\ handler docx_save (Request None (Some "[[5, 5]]") (Some xlsx_magic) None)
     = handler docx_save (Request None (Some "not json") (Some xlsx_magic) None)
  /\ handler docx_save (Request (Some "d") (Some EmptyString) None (Some pdf_magic))
     = HTTPException 400 "Не переданы координаты".
Proof.
  split; [|split].
  - destruct (generate_doc_coordinate_source json_loads float_of_str
                (workbook long_sheet) np_polyfit format_3f savefig_png _ _
                (pdf_document [0; 1; 2]) get_pixmap tobytes lower docx_save
                (Request None (Some "[[5, 5]]") (Some xlsx_magic) None))
      as (H & _).
    apply (H _ eq_refl).
  - destruct (generate_doc_coordinate_source json_loads float_of_str
                (workbook long_sheet) np_polyfit format_3f savefig_png _ _
                (pdf_document [0; 1; 2]) get_pixmap tobytes lower docx_save
                (Request None (Some "[[5, 5]]") (Some xlsx_magic) None))
      as (H & _).
    apply (H _ eq_refl).
  - destruct (generate_doc_coordinate_source json_loads float_of_str
                (workbook long_sheet) np_polyfit format_3f savefig_png _ _
                (pdf_document [0; 1; 2]) get_pixmap tobytes lower docx_save
                (Request (Some "d") (Some EmptyString) None (Some pdf_magic)))
      as (_ & H).
    apply H; [reflexivity|now right].
Defined.


(** The chart of [[(5, 5)]]: two artists, the labels, the grid. *)
Example create_plot_five_five :
  create_plot np_polyfit format_3f savefig_png [(5, 5)%float]
  = Ok [x89; x50; x4e; x47; x2a; x2a; x2a; x2a; x2a; x2a].
Proof. reflexivity. Qed.

(* ================================================================= *)
(** ** What the handler does not call *)

(** The handler calls the packages its inputs need and no other: without
    a PDF the answer does not depend on PyMuPDF, with a spreadsheet it
    does not depend on [json.loads], and without one it does not depend
    on openpyxl. *)
Theorem generate_doc_unused_back_ends
        (json_loads json_loads' : string -> result pyobj)
        (float_of_str : string -> result float)
        (load_workbook load_workbook' : bytes -> result (list (list pyobj)))
        (np_polyfit : list float -> list float -> nat -> result (float * float))
        (format_3f : float -> string)
        (savefig_png : list artist -> result bytes)
        (page pixmap page' pixmap' : Type)
        (fitz_open : bytes -> result (list page))
        (get_pixmap : page -> Z -> result pixmap)
        (tobytes : pixmap -> string -> result bytes)
        (fitz_open' : bytes -> result (list page'))
        (get_pixmap' : page' -> Z -> result pixmap')
        (tobytes' : pixmap' -> string -> result bytes)
        (lower lower' : string -> string)
        (docx_save : list block -> result bytes)
        (req : request) :
  (pdf_file req = None ->
   generate_doc json_loads float_of_str load_workbook np_polyfit format_3f
     savefig_png fitz_open get_pixmap tobytes lower docx_save req
   = generate_doc json_loads float_of_str load_workbook np_polyfit format_3f
       savefig_png fitz_open' get_pixmap' tobytes' lower' docx_save req)
  /\ (excel_file req <> None ->
      generate_doc json_loads float_of_str load_workbook np_polyfit format_3f
        savefig_png fitz_open get_pixmap tobytes lower docx_save req
      = generate_doc json_loads' float_of_str load_workbook np_polyfit format_3f
          savefig_png fitz_open get_pixmap tobytes lower docx_save req)
  /\ (excel_file req = None ->
      generate_doc json_loads float_of_str load_workbook np_polyfit format_3f
        savefig_png fitz_open get_pixmap tobytes lower docx_save req
      = generate_doc json_loads float_of_str load_workbook' np_polyfit format_3f
          savefig_png fitz_open get_pixmap tobytes lower docx_save req).
Proof.
  unfold generate_doc, build_report, select_coords. split; [|split].
  - intros ->. reflexivity.
  - destruct (excel_file req); [reflexivity|]. intros H. now elim H.
  - intros ->. reflexivity.
Qed.

(* ================================================================= *)
(** ** More runs on examples *)

(** A returned sequence traced back to its payload. *)
Lemma parse_coords_json_sound_witness :
  json "[[0, 0], 7, [2, 4], [1]]" = Ok [(0, 0); (2, 4)]%float
  /\ exists items,
       json_loads "[[0, 0], 7, [2, 4], [1]]" = Ok (PyList items)
       /\ forallb (convertible float_of_str) items = true
       /\ [(0, 0); (2, 4)]%float = firstn 10 (valid_pairs float_of_str items)
       /\ 1 <= 2 <= 10.
Proof.
  split; [reflexivity|].
  apply (parse_coords_json_sound json_loads float_of_str
           "[[0, 0], 7, [2, 4], [1]]" [(0, 0); (2, 4)]%float).
  reflexivity.
Defined.

(** The ten coordinates of the long sheet traced back to its rows. *)
Lemma parse_coords_excel_sound_witness :
  exists ws,
    workbook long_sheet xlsx_magic = Ok ws
    /\ [(1, 1); (2, 4); (3, 9); (4, 16); (5, 25);
        (6, 36); (7, 49); (8, 64); (9, 81); (10, 100)]%float
       = firstn 10 (sheet_coords float_of_str (iter_rows_from_2 ws))
    /\ 1 <= 10 <= 10.
Proof.
  apply (parse_coords_excel_sound float_of_str (workbook long_sheet) xlsx_magic
           [(1, 1); (2, 4); (3, 9); (4, 16); (5, 25);
            (6, 36); (7, 49); (8, 64); (9, 81); (10, 100)]%float).
  reflexivity.
Defined.

(** The handler goes on with the ten coordinates of the sheet. *)
Lemma select_coords_range_witness :
  select_coords json_loads float_of_str (workbook long_sheet)
    (Request None None (Some xlsx_magic) None)
  = excel long_sheet xlsx_magic
  /\ 1 <= 10 <= 10.
Proof.
  split; [reflexivity|].
  apply (select_coords_range json_loads float_of_str (workbook long_sheet)
           (Request None None (Some xlsx_magic) None)
           [(1, 1); (2, 4); (3, 9); (4, 16); (5, 25);
            (6, 36); (7, 49); (8, 64); (9, 81); (10, 100)]%float).
  reflexivity.
Defined.

(** Three points given out of order, sorted. *)
Lemma sorted_by_x_ascending_witness :
  sorted_by_x [(2, 4); (0, 0); (1, 1)]%float = [(0, 0); (1, 1); (2, 4)]%float
  /\ StronglySorted may_follow (sorted_by_x [(2, 4); (0, 0); (1, 1)]%float).
Proof.
  split; [reflexivity|].
  apply sorted_by_x_ascending.
  intros c [<- | [<- | [<- | []]]]; reflexivity.
Defined.

(** Two points of one abscissa keep their order. *)
Lemma sorted_by_x_fixes_ascending_witness :
  StronglySorted may_follow [(0, 0); (1, 5); (1, 3); (2, 4)]%float
  /\ sorted_by_x [(0, 0); (1, 5); (1, 3); (2, 4)]%float
     = [(0, 0); (1, 5); (1, 3); (2, 4)]%float.
Proof.
  assert (H : StronglySorted may_follow [(0, 0); (1, 5); (1, 3); (2, 4)]%float)
    by (repeat constructor).
  split; [exact H|]. exact (sorted_by_x_fixes_ascending _ H).
Defined.

(** The line of three points given out of order goes through the three
    points. *)
Lemma plot_layers_same_points_witness :
  exists xs_s ys_s more,
    [Scatter [2; 0; 1]%float [4; 0; 2]%float;
     Plot [0; 1; 2]%float [0; 2; 4]%float "-" None;
     Plot [0; 1; 2]%float [0; 2; 4]%float "--" (Some 1%float);
     Text 0.02 0.98 "Тренд: y=2.000x+0.000" "top"]
    = Scatter (map fst [(2, 4); (0, 0); (1, 2)]%float)
              (map snd [(2, 4); (0, 0); (1, 2)]%float)
        :: Plot xs_s ys_s "-" None :: more
    /\ List.length xs_s = List.length ys_s
    /\ Permutation (combine xs_s ys_s) [(2, 4); (0, 0); (1, 2)]%float.
Proof.
  apply (plot_layers_same_points np_polyfit format_3f
           [(2, 4); (0, 0); (1, 2)]%float).
  reflexivity.
Defined.

(** A document of three pages. *)
Lemma pdf_to_images_all_pages_witness :
  pdf_to_images (pdf_document [0; 1; 2]) get_pixmap tobytes lower pdf_magic
  = Ok [[x89; x50; x4e; x47];
        [x89; x50; x4e; x47; x2a];
        [x89; x50; x4e; x47; x2a; x2a]].
Proof.
  apply (pdf_to_images_all_pages _ _ (pdf_document [0; 1; 2]) get_pixmap
           tobytes lower pdf_magic [0; 1; 2]).
  - discriminate.
  - reflexivity.
  - repeat (constructor; [eexists; split; reflexivity|]). constructor.
Defined.

(** The second page of three is too large. *)
Lemma pdf_to_images_first_failing_page_witness :
  pdf_to_images (pdf_document [0; 99; 2]) get_pixmap tobytes lower pdf_magic
  = Raise (Exn ValueError
             "Ошибка PDF: Недостаточно памяти для рендеринга страницы 2. PDF слишком большой или содержит очень высокое разрешение.").
Proof.
  apply (pdf_to_images_first_failing_page _ _ (pdf_document [0; 99; 2])
           get_pixmap tobytes lower pdf_magic [0] [2] 99
           [[x89; x50; x4e; x47]] (Exn MemoryError EmptyString)).
  - discriminate.
  - reflexivity.
  - repeat (constructor; [eexists; split; reflexivity|]). constructor.
  - reflexivity.
Defined.

(** A damaged file. *)
Lemma pdf_to_images_open_failure_witness :
  pdf_to_images pdf_broken get_pixmap tobytes lower pdf_magic
  = Raise (Exn ValueError "Ошибка PDF: PDF повреждён или имеет неверный формат")
  /\ malformed_document "PDF повреждён или имеет неверный формат".
Proof.
  apply (pdf_to_images_open_failure _ _ pdf_broken get_pixmap tobytes lower
           pdf_magic (Exn RuntimeError "Cannot open broken document")).
  - discriminate.
  - reflexivity.
  - reflexivity.
  - reflexivity.
Defined.

(** A protected file is reported as such, a damaged one is not. *)
Lemma pdf_to_images_encrypted_iff_witness :
  pdf_to_images pdf_protected get_pixmap tobytes lower pdf_magic
  = Raise (pdf_error encrypted_document)
  /\ pdf_to_images pdf_broken get_pixmap tobytes lower pdf_magic
     <> Raise (pdf_error encrypted_document).
Proof.
  split.
  - apply (pdf_to_images_encrypted_iff _ _ pdf_protected get_pixmap tobytes
             lower pdf_magic
             (Exn RuntimeError "cannot authenticate: document is Encrypted"));
      try reflexivity. discriminate.
  - intros H.
    apply (pdf_to_images_encrypted_iff _ _ pdf_broken get_pixmap tobytes
             lower pdf_magic (Exn RuntimeError "Cannot open broken document"))
      in H; try reflexivity; discriminate.
Defined.

(** PyMuPDF runs out of memory while it opens the file. *)
Lemma pdf_to_images_open_other_witness :
  pdf_to_images pdf_too_large get_pixmap tobytes lower pdf_magic
  = Raise (Exn ValueError
             "Недостаточно памяти для обработки PDF. Попробуйте загрузить файл меньшего размера.").
Proof.
  apply (pdf_to_images_open_other _ _ pdf_too_large get_pixmap tobytes lower
           pdf_magic (Exn MemoryError EmptyString)).
  - discriminate.
  - reflexivity.
  - reflexivity.
Defined.

(** One coordinate and a PDF of three pages: the report of eleven
    blocks. *)
Lemma generate_doc_success_witness :
  handler docx_save (Request None (Some "[[5, 5]]") None (Some pdf_magic))
  = StreamingResponse
      ([x50; x4b; x03; x04] ++ repeat x2a 11)
      "application/vnd.openxmlformats-officedocument.wordprocessingml.document"
      "attachment; filename=generated_document.docx".
Proof.
  apply (generate_doc_success json_loads float_of_str (workbook long_sheet)
           np_polyfit format_3f savefig_png _ _ (pdf_document [0; 1; 2])
           get_pixmap tobytes lower docx_save
           (Request None (Some "[[5, 5]]") None (Some pdf_magic))
           [(5, 5)%float]
           [[x89; x50; x4e; x47];
            [x89; x50; x4e; x47; x2a];
            [x89; x50; x4e; x47; x2a; x2a]]
           ([x89; x50; x4e; x47] ++ repeat x2a 6));
    reflexivity.
Defined.

(** One coordinate and a PDF of three pages: eleven blocks. *)
Lemma generate_doc_pages_in_report_witness :
  List.length
    (report_blocks None ([x89; x50; x4e; x47] ++ repeat x2a 6)
       [[x89; x50; x4e; x47];
        [x89; x50; x4e; x47; x2a];
        [x89; x50; x4e; x47; x2a; x2a]])
  = 5 + 2 * 3
  /\ handler docx_save (Request None (Some "[[5, 5]]") None (Some pdf_magic))
     = StreamingResponse ([x50; x4b; x03; x04] ++ repeat x2a 11)
         docx_media_type docx_disposition.
Proof.
  apply (generate_doc_pages_in_report json_loads float_of_str
           (workbook long_sheet) np_polyfit format_3f savefig_png _ _
           (pdf_document [0; 1; 2]) get_pixmap tobytes lower docx_save
           (Request None (Some "[[5, 5]]") None (Some pdf_magic))
           pdf_magic [0; 1; 2]
           [[x89; x50; x4e; x47];
            [x89; x50; x4e; x47; x2a];
            [x89; x50; x4e; x47; x2a; x2a]]
           [(5, 5)%float]
           ([x89; x50; x4e; x47] ++ repeat x2a 6)
           ([x50; x4b; x03; x04] ++ repeat x2a 11)); try reflexivity.
  - discriminate.
  - repeat (constructor; [eexists; split; reflexivity|]). constructor.
Defined.

(** The null of the second pair is reported, not the text of the third. *)
Lemma parse_coords_json_first_bad_pair_witness :
  json_loads_more "[[1, 2], [null, 3], [4, 5]]"
  = Ok (PyList [int_pair 1 2; PyList [PyNone; PyInt 3]; int_pair 4 5])
  /\ parse_coords_json json_loads_more float_of_str
       "[[1, 2], [null, 3], [4, 5]]"
     = Raise (Exn ValueError
                "Некорректные координаты: float() argument must be a string or a real number, not 'NoneType'").
Proof.
  split; [reflexivity|].
  apply (parse_coords_json_first_bad_pair json_loads_more float_of_str
           "[[1, 2], [null, 3], [4, 5]]" [int_pair 1 2] [int_pair 4 5]
           PyNone (PyInt 3) (float_type_error "NoneType")); reflexivity.
Defined.

(** A sheet of one column, and the sheet whose data row holds text. *)
Lemma parse_coords_excel_first_bad_row_witness :
  excel [[PyStr "x"]; [PyInt 1]] xlsx_magic
  = Raise (Exn ValueError
             "Ошибка Excel: not enough values to unpack (expected 2, got 1)")
  /\ excel text_sheet xlsx_magic
     = Raise (Exn ValueError
                "Ошибка Excel: could not convert string to float: 'abc'").
Proof.
  split.
  - destruct (parse_coords_excel_first_bad_row float_of_str
                (workbook [[PyStr "x"]; [PyInt 1]]) xlsx_magic
                [[PyStr "x"]; [PyInt 1]] [] [] [PyInt 1]
                eq_refl eq_refl eq_refl) as [Hshort _].
    + cbn. lia.
    + apply Hshort. cbn. lia.
  - destruct (parse_coords_excel_first_bad_row float_of_str
                (workbook text_sheet) xlsx_magic text_sheet [] []
                [PyStr "abc"; PyFloat 2] eq_refl eq_refl eq_refl)
      as [_ Hvalue].
    + cbn. lia.
    + apply (Hvalue (PyStr "abc", PyFloat 2)
               (Exn ValueError "could not convert string to float: 'abc'"));
        reflexivity.
Defined.
